(** * WI2CamtrapDP processor: a shallow embedding of [camtrapdp/processor.py]

    Strings are Rocq byte strings; the string operations below follow
    Python's [str] methods on the ASCII range. *)

From Stdlib Require Import String Ascii List Arith Lia ZArith QArith Bool.
From Stdlib Require Import Sorting.Sorted Sorting.Permutation Lqa.
Import ListNotations.
Open Scope nat_scope.
Open Scope string_scope.

(** ** Python string helpers *)
Module Py.

Definition is_space (c : ascii) : bool :=
  let n := nat_of_ascii c in
  Nat.eqb n 32 || (Nat.leb 9 n && Nat.leb n 13) || (Nat.leb 28 n && Nat.leb n 31).

Definition lower_char (c : ascii) : ascii :=
  let n := nat_of_ascii c in
  if Nat.leb 65 n && Nat.leb n 90 then ascii_of_nat (n + 32) else c.

Definition upper_char (c : ascii) : ascii :=
  let n := nat_of_ascii c in
  if Nat.leb 97 n && Nat.leb n 122 then ascii_of_nat (n - 32) else c.

(** [str.lower()] *)
Fixpoint lower (s : string) : string :=
  match s with
  | EmptyString => EmptyString
  | String c r => String (lower_char c) (lower r)
  end.

(** [str.capitalize()]: first character upper case, the rest lower case. *)
Definition capitalize (s : string) : string :=
  match s with
  | EmptyString => EmptyString
  | String c r => String (upper_char c) (lower r)
  end.

Fixpoint lstrip (s : string) : string :=
  match s with
  | EmptyString => EmptyString
  | String c r => if is_space c then lstrip r else s
  end.

Definition rev_string (s : string) : string :=
  string_of_list_ascii (List.rev (list_ascii_of_string s)).

(** [str.strip()] *)
Definition strip (s : string) : string := rev_string (lstrip (rev_string (lstrip s))).

(** [sub in s] *)
Fixpoint contains (sub s : string) : bool :=
  if String.prefix sub s then true
  else match s with EmptyString => false | String _ r => contains sub r end.

(** [s.endswith(suf)] *)
Definition endswith (suf s : string) : bool :=
  String.prefix (rev_string suf) (rev_string s).

(** [" " in s] *)
Definition has_space (s : string) : bool := contains " " s.

(** ** Decimal formatting: [str(n)] and [f"{n:0wd}"] *)

Fixpoint dec_digits (fuel n : nat) : list nat :=
  match fuel with
  | O => [n]
  | S f => if Nat.ltb n 10 then [n] else dec_digits f (n / 10) ++ [n mod 10]
  end.

Definition digit_char (d : nat) : ascii := ascii_of_nat (48 + d).

Definition str_of_nat (n : nat) : string :=
  string_of_list_ascii (map digit_char (dec_digits n n)).

(** [f"{n:0wd}"]: zero padding up to width [w], never truncating. *)
Definition zpad (w n : nat) : string :=
  let d := str_of_nat n in
  string_of_list_ascii (repeat "0"%char (w - String.length d)) ++ d.

(** [int(s)] for a string of decimal digits. *)
Definition int_of_digits (s : string) : nat :=
  fold_left (fun acc c => acc * 10 + (nat_of_ascii c - 48)) (list_ascii_of_string s) 0.

End Py.

(** ** Taxonomic classifier: [classify_observation_and_scientific_name] *)
Module Classify.
Import Py.

(** The row fields as [str(row.get(col, ""))] sees them: a missing value
    renders as ["nan"] (NaN) or ["None"]. *)
Record tax_row := {
  common_name : string;
  scientific_name_norm : string;
  genus : string;
  species : string;
  order : string;
  family : string;
  class_name : string
}.

(** [v and v.lower() not in {"", "nan", "none"}] *)
Definition informative (v : string) : bool :=
  negb (String.eqb v "") &&
  negb (String.eqb (lower v) "nan") && negb (String.eqb (lower v) "none").

Definition classify_observation_and_scientific_name (row : tax_row) : string * string :=
  let common_name := strip (common_name row) in
  let scientific_name_norm := strip (scientific_name_norm row) in
  let genus := strip (genus row) in
  let order := strip (order row) in
  let family := strip (family row) in
  let class_name := strip (class_name row) in
  let common_lower := lower common_name in
  if String.eqb common_lower "human" || String.eqb common_lower "human-camera trapper" then
    let sci_name := if informative scientific_name_norm then scientific_name_norm
                    else "Homo sapiens" in
    ("human", sci_name)
  else if String.eqb common_lower "blank" then ("blank", "blank")
  else if String.eqb common_lower "animal" then ("animal", "Animalia")
  else if String.eqb common_lower "vehicle" then ("vehicle", "blank")
  else if String.eqb common_lower "unknown" then ("unknown", "blank")
  else if String.eqb common_lower "unclassified" then ("unclassified", "blank")
  else
    let scientific_name :=
      if informative scientific_name_norm && has_space scientific_name_norm
      then scientific_name_norm
      else if informative genus then genus
      else if informative family then family
      else if informative order then order
      else if informative class_name then class_name
      else "Animalia" in
    ("animal", scientific_name).

(** The precedence as the specification lists it (steps 1 to 7).  A field is
    present when it is non-empty after trimming and is not the rendering of a
    missing value. *)
Definition present (v : string) : bool := informative (strip v).

Definition is_cn (row : tax_row) (name : string) : bool :=
  String.eqb (lower (strip (common_name row))) name.

Definition taxonomic_cascade (row : tax_row) : string :=
  let comp := strip (scientific_name_norm row) in
  if present (scientific_name_norm row) && has_space comp then comp
  else if present (genus row) then strip (genus row)
  else if present (family row) then strip (family row)
  else if present (order row) then strip (order row)
  else if present (class_name row) then strip (class_name row)
  else "Animalia".

Definition classify_spec (row : tax_row) : string * string :=
  if is_cn row "human" || is_cn row "human-camera trapper" then
    ("human", if present (scientific_name_norm row)
              then strip (scientific_name_norm row) else "Homo sapiens")
  else if is_cn row "blank" then ("blank", "blank")
  else if is_cn row "animal" then ("animal", "Animalia")
  else if is_cn row "vehicle" then ("vehicle", "blank")
  else if is_cn row "unknown" then ("unknown", "blank")
  else if is_cn row "unclassified" then ("unclassified", "blank")
  else ("animal", taxonomic_cascade row).

Definition sentinels : list string :=
  ["human"; "human-camera trapper"; "blank"; "animal"; "vehicle"; "unknown"; "unclassified"].

End Classify.

(** ** Timestamps: [to_iso_utc] *)
Module Time.
Import Py.
Open Scope Z_scope.

(** Proleptic Gregorian calendar, days relative to 1970-01-01. *)
Definition days_from_civil (y m d : Z) : Z :=
  let y' := if m <=? 2 then y - 1 else y in
  let era := y' / 400 in
  let yoe := y' - era * 400 in
  let doy := (153 * (if m >? 2 then m - 3 else m + 9) + 2) / 5 + d - 1 in
  let doe := yoe * 365 + yoe / 4 - yoe / 100 + doy in
  era * 146097 + doe - 719468.

Definition civil_from_days (z : Z) : Z * Z * Z :=
  let z' := z + 719468 in
  let era := z' / 146097 in
  let doe := z' - era * 146097 in
  let yoe := (doe - doe / 1460 + doe / 36524 - doe / 146096) / 365 in
  let y := yoe + era * 400 in
  let doy := doe - (365 * yoe + yoe / 4 - yoe / 100) in
  let mp := (5 * doy + 2) / 153 in
  let d := doy - (153 * mp + 2) / 5 + 1 in
  let m := if mp <? 10 then mp + 3 else mp - 9 in
  ((if m <=? 2 then y + 1 else y), m, d).

Definition is_leap (y : Z) : bool :=
  ((y mod 4 =? 0) && negb (y mod 100 =? 0)) || (y mod 400 =? 0).

Definition days_in_month (y m : Z) : Z :=
  if m =? 2 then (if is_leap y then 29 else 28)
  else if (m =? 4) || (m =? 6) || (m =? 9) || (m =? 11) then 30 else 31.

(** [pd.Timestamp] range at nanosecond resolution, in whole seconds. *)
Definition ts_min : Z := -9223372036.
Definition ts_max : Z := 9223372036.
Definition in_bounds (u : Z) : bool := (ts_min <=? u) && (u <=? ts_max).

(** A parsed value: naive (local wall-clock seconds) or aware (UTC seconds). *)
Inductive parsed := Naive (local : Z) | Aware (utc : Z).

(** How a zone resolves a local wall-clock time, as read off the tz database:
    one UTC offset, two (DST fall back), or none (DST gap; the offset in force
    after the gap). *)
Inductive local_res := LUnique (o : Z) | LAmbiguous (o1 o2 : Z) | LGap (o_after : Z).
Definition zone := Z -> local_res.
Definition tzdb := string -> option zone.

(** Outcome of [Timestamp.tz_localize]: an instant, [NaT], or an exception. *)
Inductive loc_result := LInst (u : Z) | LNaT | LRaise.

Fixpoint digits_val (l : list ascii) (acc : Z) : option Z :=
  match l with
  | [] => Some acc
  | c :: r =>
      let n := Z.of_nat (nat_of_ascii c) in
      if (48 <=? n) && (n <=? 57) then digits_val r (acc * 10 + (n - 48)) else None
  end.

Definition is_digit (c : ascii) : bool :=
  Nat.leb 48 (nat_of_ascii c) && Nat.leb (nat_of_ascii c) 57.

(** Split off a run of at most [k] leading digits (greedy). *)
Fixpoint take_digits (k : nat) (l : list ascii) : list ascii * list ascii :=
  match k, l with
  | S k', c :: r => if is_digit c then let (a, b) := take_digits k' r in (c :: a, b) else ([], l)
  | _, _ => ([], l)
  end.

Definition field (lo hi : nat) (max_lo max_hi : Z) (l : list ascii) : option (Z * list ascii) :=
  let (ds, rest) := take_digits hi l in
  if Nat.leb lo (List.length ds) then
    match digits_val ds 0 with
    | Some v => if (max_lo <=? v) && (v <=? max_hi) then Some (v, rest) else None
    | None => None
    end
  else None.

Definition expect (c : ascii) (l : list ascii) : option (list ascii) :=
  match l with d :: r => if Ascii.eqb c d then Some r else None | [] => None end.

Fixpoint skip_spaces1 (l : list ascii) : list ascii :=
  match l with c :: r => if is_space c then skip_spaces1 r else l | [] => [] end.

Definition spaces (l : list ascii) : option (list ascii) :=
  match l with c :: r => if is_space c then Some (skip_spaces1 r) else None | [] => None end.

Definition obind {A B} (o : option A) (f : A -> option B) : option B :=
  match o with Some a => f a | None => None end.

(** [pd.to_datetime(s, format="%d/%m/%Y %H:%M", errors="coerce")]: the
    strptime field patterns (d 1..31, m 1..12, four-digit Y, H 0..23, M 0..59,
    the space matching [\s+]), a full match, a valid calendar day and the
    Timestamp range; [None] stands for [NaT]. *)
Definition parse_dmy_hm (s : string) : option Z :=
  let l := list_ascii_of_string s in
  obind (field 1 2 1 31 l) (fun '(d, l) =>
  obind (expect "/" l) (fun l =>
  obind (field 1 2 1 12 l) (fun '(m, l) =>
  obind (expect "/" l) (fun l =>
  obind (field 4 4 0 9999 l) (fun '(y, l) =>
  obind (spaces l) (fun l =>
  obind (field 1 2 0 23 l) (fun '(hh, l) =>
  obind (expect ":" l) (fun l =>
  obind (field 1 2 0 59 l) (fun '(mm, l) =>
  match l with
  | [] =>
      if (1 <=? y) && (d <=? days_in_month y m) then
        let t := days_from_civil y m d * 86400 + hh * 3600 + mm * 60 in
        if in_bounds t then Some t else None
      else None
  | _ => None
  end))))))))).

Section ToIso.
(** The zone database consulted by [tz_localize], and pandas' format-inferring
    parser [pd.to_datetime(s, errors="coerce", dayfirst=False)] ([None] is
    [NaT]); neither is part of this repository. *)
Variable db : tzdb.
Variable infer_datetime : string -> option parsed.

Definition bounded (p : parsed) : option parsed :=
  match p with
  | Naive l => if in_bounds l then Some p else None
  | Aware u => if in_bounds u then Some p else None
  end.

(** The explicit day-first format first, then pandas' inference. *)
Definition parse_datetime (s : string) : option parsed :=
  match parse_dmy_hm s with
  | Some l => Some (Naive l)
  | None => obind (infer_datetime s) bounded
  end.

(** [dt.tz_localize(tz_hint, nonexistent="shift_forward", ambiguous="NaT")]:
    a NaN hint or an unknown zone raises; a gap shifts the wall time up to the
    next whole hour; an instant outside the Timestamp range raises. *)
Definition tz_localize (tz_hint : option string) (l : Z) : loc_result :=
  match tz_hint with
  | None => LRaise
  | Some name =>
      match db name with
      | None => LRaise
      | Some z =>
          let r := match z l with
                   | LUnique o => LInst (l - o)
                   | LAmbiguous _ _ => LNaT
                   | LGap o => LInst (l + (3600 - l mod 3600) - o)
                   end in
          match r with
          | LInst u => if in_bounds u then LInst u else LRaise
          | other => other
          end
      end
  end.

(** [dt.strftime("%Y-%m-%dT%H:%M:%SZ")] of a UTC instant. *)
Definition strftime_utc (u : Z) : string :=
  let days := u / 86400 in
  let secs := u mod 86400 in
  let '(y, m, d) := civil_from_days days in
  str_of_nat (Z.to_nat y) ++ "-" ++ zpad 2 (Z.to_nat m) ++ "-" ++ zpad 2 (Z.to_nat d) ++ "T" ++
  zpad 2 (Z.to_nat (secs / 3600)) ++ ":" ++ zpad 2 (Z.to_nat ((secs mod 3600) / 60)) ++ ":" ++
  zpad 2 (Z.to_nat (secs mod 60)) ++ "Z".

(** [to_iso_utc(value, tz_hint)]; [None] is [pd.NA] (the argument [None]
    stands for Python [None] and NaN alike, both of which give [pd.NA]). *)
Definition to_iso_utc (value : option string) (tz_hint : option string) : option string :=
  match value with
  | None => None
  | Some v =>
      let s := strip v in
      if String.eqb s "" || String.eqb (lower s) "nan" then None
      else
        let dt := parse_datetime s in
        match dt with
        | None => None
        | Some p =>
            let loc := match p with
                       | Aware u => LInst u
                       | Naive l =>
                           match tz_localize tz_hint l with
                           | LRaise => LInst l   (* fallback: [dt.tz_localize("UTC")] *)
                           | r => r
                           end
                       end in
            match loc with
            | LInst u => Some (strftime_utc u)
            | LNaT => None     (* [NaT.strftime] raises; the outer except returns pd.NA *)
            | LRaise => None
            end
        end
  end.

End ToIso.

(** The template of the output: [d] is a decimal digit. *)
Definition iso_template : string := "dddd-dd-ddTdd:dd:ddZ".

Fixpoint matches (t s : list ascii) : bool :=
  match t, s with
  | [], [] => true
  | tc :: t', sc :: s' =>
      (if Ascii.eqb tc "d" then is_digit sc else Ascii.eqb tc sc) && matches t' s'
  | _, _ => false
  end.

(** The string has the form [YYYY-MM-DDTHH:MM:SSZ]. *)
Definition iso_form (s : string) : bool :=
  matches (list_ascii_of_string iso_template) (list_ascii_of_string s).

(** Zones of the tz database used in the examples: [America/Bogota] (UTC-5
    without DST), [UTC], and [America/New_York] with its 2023 transitions
    (2023-03-12 02:00 EST to 03:00 EDT, 2023-11-05 02:00 EDT back to 01:00 EST;
    other local times read as EST in this fragment). *)
Definition utc_zone : zone := fun _ => LUnique 0.
Definition bogota_zone : zone := fun _ => LUnique (-18000).

Definition ny_spring : Z := days_from_civil 2023 3 12 * 86400 + 2 * 3600.
Definition ny_fall : Z := days_from_civil 2023 11 5 * 86400 + 2 * 3600.

Definition new_york_2023 : zone := fun l =>
  if (ny_spring <=? l) && (l <? ny_spring + 3600) then LGap (-14400)
  else if (ny_fall - 3600 <=? l) && (l <? ny_fall) then LAmbiguous (-14400) (-18000)
  else if (ny_spring + 3600 <=? l) && (l <? ny_fall - 3600) then LUnique (-14400)
  else LUnique (-18000).

Definition example_db : tzdb := fun name =>
  if String.eqb name "America/Bogota" then Some bogota_zone
  else if String.eqb name "UTC" then Some utc_zone
  else if String.eqb name "America/New_York" then Some new_york_2023
  else None.

End Time.

(** ** Data frames as read from the CSV members *)
Module Frame.
Import Py.

(** A cell: [None] is a missing value (NaN). *)
Definition cell := option string.
(** A row maps column names to its non-missing values. *)
Definition row := list (string * string).
Record frame := { cols : list string; rows : list row }.

Definition empty_frame : frame := {| cols := []; rows := [] |}.

Fixpoint get (r : row) (c : string) : cell :=
  match r with
  | [] => None
  | (k, v) :: r' => if String.eqb k c then Some v else get r' c
  end.

Definition has_col (f : frame) (c : string) : bool := existsb (String.eqb c) (cols f).

(** [DataFrame.empty]: no rows or no columns. *)
Definition is_empty (f : frame) : bool :=
  match rows f, cols f with [], _ => true | _, [] => true | _, _ => false end.

Definition set (r : row) (c : string) (v : cell) : row :=
  let r' := filter (fun kv => negb (String.eqb (fst kv) c)) r in
  match v with Some s => (c, s) :: r' | None => r' end.

(** [df[c] = values] (one value per row). *)
Definition set_col (f : frame) (c : string) (vs : list cell) : frame :=
  {| cols := if has_col f c then cols f else cols f ++ [c];
     rows := map (fun '(r, v) => set r c v) (combine (rows f) vs) |}.

(** [str(row.get(c, default))] *)
Definition col_str (f : frame) (r : row) (c default : string) : string :=
  if has_col f c then match get r c with Some s => s | None => "nan" end else default.

(** [pd.to_numeric(x, errors="coerce")] on a CSV text cell: optional sign,
    digits with an optional fraction, an optional exponent.  The result is
    the exact decimal value; pandas reads a float64 within a few units in the
    last place of it (see [float_margin]). *)
Definition digit_val (c : ascii) : nat := nat_of_ascii c - 48.

Fixpoint digit_run (l : list ascii) : list nat * list ascii :=
  match l with
  | c :: r => if Time.is_digit c then let (ds, rest) := digit_run r in (digit_val c :: ds, rest)
              else ([], l)
  | [] => ([], [])
  end.

Definition digits_Z (ds : list nat) : Z :=
  fold_left (fun acc d => (acc * 10 + Z.of_nat d)%Z) ds 0%Z.

Definition sign_of (l : list ascii) : Z * list ascii :=
  match l with
  | c :: r => if Ascii.eqb c "-" then ((-1)%Z, r) else if Ascii.eqb c "+" then (1%Z, r) else (1%Z, l)
  | [] => (1%Z, l)
  end.

Definition pow10 (e : Z) : Q :=
  if (0 <=? e)%Z then inject_Z (10 ^ e) else / inject_Z (10 ^ (- e)).

Definition to_numeric (c : cell) : option Q :=
  match c with
  | None => None
  | Some s =>
      let l := list_ascii_of_string (strip s) in
      let (sg, l) := sign_of l in
      let (ip, l) := digit_run l in
      let '(fp, l) := match l with
                      | c :: r => if Ascii.eqb c "." then digit_run r else ([], l)
                      | [] => ([], l)
                      end in
      let mant := digits_Z (ip ++ fp) in
      let scale := Z.of_nat (List.length fp) in
      let ok_mant := negb (Nat.eqb (List.length (ip ++ fp)) 0) in
      let exp := match l with
                 | [] => Some 0%Z
                 | c :: r =>
                     if Ascii.eqb c "e" || Ascii.eqb c "E" then
                       let (esg, r) := sign_of r in
                       let (eds, rest) := digit_run r in
                       match eds, rest with
                       | _ :: _, [] => Some (esg * digits_Z eds)%Z
                       | _, _ => None
                       end
                     else None
                 end in
      match ok_mant, exp with
      | true, Some e => Some (inject_Z (sg * mant) * pow10 (e - scale))%Q
      | _, _ => None
      end
  end.

Definition Qltb (x y : Q) : bool := negb (Qle_bool y x).


(** [ext_to_mediatype] *)
Fixpoint after_last_dot (s acc : string) : string :=
  match s with
  | EmptyString => acc
  | String c r => if Ascii.eqb c "." then after_last_dot r "" else after_last_dot r (acc ++ String c "")
  end.

Definition ext_to_mediatype (name : string) : string :=
  let ext := if contains "." name then after_last_dot (lower name) "" else "" in
  if String.eqb ext "jpg" || String.eqb ext "jpeg" then "image/jpeg"
  else if String.eqb ext "png" then "image/png"
  else if String.eqb ext "gif" then "image/gif"
  else if String.eqb ext "bmp" then "image/bmp"
  else if String.eqb ext "tif" || String.eqb ext "tiff" then "image/tiff"
  else if String.eqb ext "mp4" then "video/mp4"
  else if String.eqb ext "avi" then "video/x-msvideo"
  else "application/octet-stream".

(** [df.sort_values(sort_cols)] on text (object) columns: lexicographic on
    the keys, each compared as Python strings (code point order, which is
    the byte order of UTF-8), missing values last, ties kept in row order
    (pandas sorts several keys with a stable lexsort).  A column pandas reads
    as numbers sorts by value instead; see [text_col]. *)
Definition cmp_cell (a b : cell) : comparison :=
  match a, b with
  | Some x, Some y => String.compare x y
  | Some _, None => Lt
  | None, Some _ => Gt
  | None, None => Eq
  end.

Fixpoint cmp_keys (ks : list string) (r1 r2 : row) : comparison :=
  match ks with
  | [] => Eq
  | k :: ks' =>
      match cmp_cell (get r1 k) (get r2 k) with
      | Eq => cmp_keys ks' r1 r2
      | c => c
      end
  end.

Fixpoint insert_sorted (ks : list string) (x : row) (l : list row) : list row :=
  match l with
  | [] => [x]
  | y :: l' =>
      match cmp_keys ks x y with
      | Gt => y :: insert_sorted ks x l'
      | _ => x :: l
      end
  end.

Fixpoint sort_rows (ks : list string) (l : list row) : list row :=
  match l with
  | [] => []
  | x :: l' => insert_sorted ks x (sort_rows ks l')
  end.

Definition sort_values (f : frame) (ks : list string) : frame :=
  {| cols := cols f; rows := sort_rows ks (rows f) |}.







(** No row has a value in the column. *)
Definition missing_col (f : frame) (c : string) : bool :=
  forallb (fun r => match get r c with Some _ => false | None => true end) (rows f).


End Frame.

(** ** [process_zip] *)
Module Pipeline.
Import Py Frame.

(** Output records; a required column is an optional value ([None] = NA). *)
Record dep_rec := {
  deploymentID : cell; latitude : option Q; longitude : option Q;
  deploymentStart : cell; deploymentEnd : cell }.

Record med_rec := {
  mediaID : cell; m_deploymentID : cell; timestamp : cell; filePath : cell;
  fileMediatype : cell; filePublic : option bool }.

Record obs_rec := {
  observationID : cell; o_deploymentID : cell; o_mediaID : cell;
  eventStart : cell; eventEnd : cell; observationLevel : cell;
  observationType : cell; scientificName : cell }.

(** One field's section of the "No CV Result" report: its number of affected
    rows, the (1-based row, filename) examples listed, and the count given as
    "... y N más". *)
Record nocv_block := {
  blk_field : string; blk_count : nat; blk_rows : list (nat * string); blk_more : nat }.

Inductive error :=
| FileNotFoundError (path : string)
| NoCVResult (images_filename : string) (total : nat) (blocks : list nocv_block)
| PythonError (kind : string)
| DeploymentsIncomplete (col : string) (missing total : nat)
| MediaIncomplete (col : string) (missing total : nat)
| MediaDuplicates (ids : list string)
| ObservationsIncomplete (col : string).

(** File-system writes. *)
Inductive effect :=
| EnsureOutputDir (dir : string)
| WriteDeployments (path : string) (t : list dep_rec)
| WriteMedia (path : string) (t : list med_rec)
| WriteObservations (path : string) (t : list obs_rec)
| WriteDatapackage (path : string)
| WriteResultZip (path : string).

(** Exceptions and a log of writes. *)
Definition M (A : Type) := list effect -> (error + A) * list effect.
Definition ret {A} (a : A) : M A := fun fs => (inr a, fs).
Definition bind {A B} (m : M A) (k : A -> M B) : M B :=
  fun fs => match m fs with
            | (inl e, fs') => (inl e, fs')
            | (inr a, fs') => k a fs'
            end.
Definition raise {A} (e : error) : M A := fun fs => (inl e, fs).
Definition lift {A} (x : error + A) : M A := fun fs => (x, fs).
Definition emit (ef : effect) : M unit := fun fs => (inr tt, app fs [ef]).
Notation "x <- m ;; k" := (bind m (fun x => k)) (at level 61, m at next level, right associativity).
Notation "m ;;; k" := (bind m (fun _ => k)) (at level 61, right associativity).

Record zip_input := {
  zip_path : string;
  zip_stem : string;
  zip_members : option (list (string * frame));  (* [None]: no such file *)
  out_dir : string;
  make_zip : bool;
  timezone_hint : string;
  now_stamp : string   (* [datetime.now().strftime("%Y%m%d_%H%M%S")] *)
}.

(** [_load_csv_from_zip] *)
Definition load_csv_from_zip (zf : list (string * frame)) (name_contains : string) : frame :=
  match find (fun m => endswith ".csv" (lower (fst m)) && contains (lower name_contains) (lower (fst m))) zf with
  | Some (_, f) => f
  | None => empty_frame
  end.

Definition images_filename (zf : list (string * frame)) : string :=
  match find (fun m => endswith ".csv" (lower (fst m)) && contains "images_" (lower (fst m))) zf with
  | Some (fn, _) => fn
  | None => "images_*.csv"
  end.

(** *** "No CV Result" gate *)
Definition fields_to_check : list string := ["common_name"; "genus"; "species"; "family"; "order"].

Record issue := { is_field : string; is_filename : string; is_row : nat }.

Definition enumerate {A} (l : list A) : list (nat * A) := combine (seq 0 (List.length l)) l.

Definition is_no_cv (images : frame) (field : string) (r : row) : bool :=
  String.eqb (strip (lower (col_str images r field ""))) "no cv result".

Definition field_issues (images : frame) (field : string) : list issue :=
  if has_col images field then
    map (fun ir => {| is_field := field; is_filename := col_str images (snd ir) "filename" "N/A";
                      is_row := fst ir + 1 |})
        (filter (fun ir => is_no_cv images field (snd ir)) (enumerate (rows images)))
  else [].

Definition nocv_issues (images : frame) : list issue :=
  if is_empty images then [] else flat_map (field_issues images) fields_to_check.

(** [issues_by_field]: a dict filled in the order of the issues. *)
Fixpoint add_issue (acc : list (string * list issue)) (i : issue) : list (string * list issue) :=
  match acc with
  | [] => [(is_field i, [i])]
  | (f, l) :: acc' => if String.eqb f (is_field i) then (f, app l [i]) :: acc'
                      else (f, l) :: add_issue acc' i
  end.

Definition issues_by_field (l : list issue) : list (string * list issue) := fold_left add_issue l [].

Definition block_of (fl : string * list issue) : nocv_block :=
  {| blk_field := fst fl; blk_count := List.length (snd fl);
     blk_rows := map (fun i => (is_row i, is_filename i)) (firstn 8 (snd fl));
     blk_more := List.length (snd fl) - 8 |}.

Definition nocv_error (zf : list (string * frame)) (issues : list issue) : error :=
  NoCVResult (images_filename zf) (List.length issues) (map block_of (issues_by_field issues)).

Section Run.
Variable db : Time.tzdb.
Variable infer_datetime : string -> option Time.parsed.
Let to_iso_utc := Time.to_iso_utc db infer_datetime.

(** *** Normalisation *)
Record prepared := {
  p_zf : list (string * frame);
  p_projects : frame;
  p_deploys : frame;
  p_images : frame;            (* with [timestamp_iso] and [scientific_name_norm] *)
  p_dep_start : list cell;
  p_dep_end : list cell;
  p_dep_tz : list (string * cell);
  p_hint : string
}.

Definition dep_timezones (deploys : frame) (hint : string) : list cell :=
  map (fun r => if has_col deploys "timezone" then get r "timezone" else Some hint) (rows deploys).

(** [[to_iso_utc(a, tz_hint=b) for a, b in zip(deploys.get(col, ""), deploys["timezone"])]];
    without the column the list is empty and assigning it to a non-empty
    frame raises [ValueError]. *)
Definition iso_column (deploys : frame) (col : string) (tzs : list cell) : error + list cell :=
  if has_col deploys col then inr (map (fun rt => to_iso_utc (get (fst rt) col) (snd rt)) (combine (rows deploys) tzs))
  else match rows deploys with [] => inr [] | _ => inl (PythonError "ValueError") end.

(** [deploys.set_index("deployment_id")["timezone"].to_dict()] *)
Definition dep_tz_map (deploys : frame) (tzs : list cell) : list (string * cell) :=
  if has_col deploys "deployment_id" then
    flat_map (fun rt => match get (fst rt) "deployment_id" with Some k => [(k, snd rt)] | None => [] end)
             (combine (rows deploys) tzs)
  else [].

(** [dep_tz.get(key, default)]: the last entry of a key wins. *)
Definition dep_tz_get (m : list (string * cell)) (key : cell) (default : cell) : cell :=
  match key with
  | None => default
  | Some k => match find (fun kv => String.eqb (fst kv) k) (rev m) with
              | Some (_, v) => v
              | None => default
              end
  end.

Definition fillna_empty (c : cell) : string := match c with Some s => s | None => "" end.

Definition normalize_images (images : frame) (m : list (string * cell)) (hint : string) : error + frame :=
  let ts := map (fun r => to_iso_utc (get r "timestamp") (dep_tz_get m (get r "deployment_id") (Some hint))) (rows images) in
  let im1 := set_col images "timestamp_iso" ts in
  let im2 := if has_col im1 "genus"
             then set_col im1 "genus" (map (fun r => Some (capitalize (strip (fillna_empty (get r "genus"))))) (rows im1))
             else im1 in
  let im3 := if has_col im2 "species"
             then set_col im2 "species" (map (fun r => Some (lower (strip (fillna_empty (get r "species"))))) (rows im2))
             else im2 in
  (* [images.get("genus", "").fillna("")]: without the column, [str] has no [fillna] *)
  if has_col im3 "genus" && has_col im3 "species" then
    inr (set_col im3 "scientific_name_norm"
           (map (fun r => Some (strip (fillna_empty (get r "genus") ++ " " ++ fillna_empty (get r "species")))) (rows im3)))
  else inl (PythonError "AttributeError").

Definition prepare (inp : zip_input) : error + prepared :=
  match zip_members inp with
  | None => inl (FileNotFoundError (zip_path inp))
  | Some zf =>
      let projects := load_csv_from_zip zf "projects" in
      let deploys := load_csv_from_zip zf "deploy" in
      let images := load_csv_from_zip zf "images" in
      match nocv_issues images with
      | _ :: _ => inl (nocv_error zf (nocv_issues images))
      | [] =>
          let hint := timezone_hint inp in
          let tzs := dep_timezones deploys hint in
          match iso_column deploys "start_date" tzs, iso_column deploys "end_date" tzs with
          | inl e, _ => inl e
          | _, inl e => inl e
          | inr starts, inr ends =>
              let m := dep_tz_map deploys tzs in
              match normalize_images images m hint with
              | inl e => inl e
              | inr im =>
                  inr {| p_zf := zf; p_projects := projects; p_deploys := deploys; p_images := im;
                         p_dep_start := starts; p_dep_end := ends; p_dep_tz := m; p_hint := hint |}
              end
          end
      end
  end.

(** *** deployments.csv *)
(** Out-of-range coordinates become NaN; NaN compares false and stays NaN. *)
Definition sanitize (lo hi : Q) (v : option Q) : option Q :=
  match v with
  | Some q => if Qltb q lo || Qltb hi q then None else Some q
  | None => None
  end.

(** One row of [dep_out]; [s] and [e] are its deploymentStart and
    deploymentEnd. *)
Definition dep_record (r : row) (s e : cell) : dep_rec :=
  {| deploymentID := get r "deployment_id";
     latitude := sanitize (-90) 90 (to_numeric (get r "latitude"));
     longitude := sanitize (-180) 180 (to_numeric (get r "longitude"));
     deploymentStart := s; deploymentEnd := e |}.

Definition build_deployments (st : prepared) : list dep_rec :=
  map (fun '(r, (s, e)) => dep_record r s e)
      (combine (rows (p_deploys st)) (combine (p_dep_start st) (p_dep_end st))).

(** cameraModel from cameras.csv.  The merge runs when cameras.csv has
    camera_id and model columns and the deployments have camera_id. *)
Definition cameras_of (st : prepared) : frame := load_csv_from_zip (p_zf st) "cameras".

Definition camera_merge_runs (cameras deploys : frame) : bool :=
  has_col cameras "camera_id" && has_col cameras "model" && has_col deploys "camera_id".

(** A key column that pandas reads as float64: rows, and no value. *)
Definition float_key (f : frame) (c : string) : bool :=
  match rows f with [] => false | _ => missing_col f c end.

(** [cam[["camera_id", "manufacturer", "model"]]] raises [KeyError] when
    cameras.csv has neither manufacturer nor make (make is copied to
    manufacturer); [deploys[["deployment_id", "camera_id"]]] raises [KeyError]
    without deployment_id; [merge(on="camera_id")] raises [ValueError] on a
    float64 key against a text one.  The cameraModel column it then adds
    is not modelled; with columns pandas reads as numbers (see [text_col])
    the merge can raise in further ways. *)
Definition camera_model_step (cameras deploys : frame) : error + unit :=
  if camera_merge_runs cameras deploys then
    if negb (has_col cameras "manufacturer" || has_col cameras "make") then inl (PythonError "KeyError")
    else if negb (has_col deploys "deployment_id") then inl (PythonError "KeyError")
    else if xorb (float_key cameras "camera_id") (float_key deploys "camera_id")
    then inl (PythonError "ValueError")
    else inr tt
  else inr tt.

Definition count_na {R} (na : R -> bool) (rs : list R) : nat := List.length (filter na rs).

(** [for col in cols: if df[col].isna().sum() > 0: raise ...] *)
Fixpoint first_missing {R} (checks : list (string * (R -> bool))) (rs : list R) : option (string * nat) :=
  match checks with
  | [] => None
  | (c, na) :: checks' =>
      if Nat.ltb 0 (count_na na rs) then Some (c, count_na na rs) else first_missing checks' rs
  end.

Definition is_none {A} (o : option A) : bool := match o with None => true | Some _ => false end.

Definition dep_required : list (string * (dep_rec -> bool)) :=
  [("deploymentID", fun r => is_none (deploymentID r));
   ("latitude", fun r => is_none (latitude r));
   ("longitude", fun r => is_none (longitude r));
   ("deploymentStart", fun r => is_none (deploymentStart r));
   ("deploymentEnd", fun r => is_none (deploymentEnd r))].

Definition check_deployments (d : list dep_rec) : error + unit :=
  match first_missing dep_required d with
  | Some (c, n) => inl (DeploymentsIncomplete c n (List.length d))
  | None => inr tt
  end.

(** *** media.csv *)
(** [value_counts(dropna=False)] counts missing ids too.  A text image_id
    column holds numpy's one [nan] object for its empty fields, which
    [iid in dup_ids] and the [within] dict find by identity, so repeated
    missing ids are numbered like any other id; in a column with no value at
    all (float64) each row yields a fresh NaN that is never found in
    [dup_ids]. *)
Definition cell_eqb (a b : cell) : bool :=
  match a, b with
  | Some x, Some y => String.eqb x y
  | None, None => true
  | _, _ => false
  end.

Fixpoint count_id (x : cell) (l : list cell) : nat :=
  match l with
  | [] => 0
  | y :: l' => (if cell_eqb x y then 1 else 0) + count_id x l'
  end.

Fixpoint lookup_nat (m : list (cell * nat)) (k : cell) : nat :=
  match m with [] => 0 | (k', v) :: m' => if cell_eqb k k' then v else lookup_nat m' k end.

Definition is_some (c : cell) : bool := match c with Some _ => true | None => false end.

(** [iid in dup_ids] *)
Definition in_dup_ids (all : list cell) (x : cell) : bool :=
  Nat.ltb 1 (count_id x all) && (is_some x || existsb is_some all).

(** [f"{iid}"]: NaN prints as "nan". *)
Definition id_text (x : cell) : string := match x with Some s => s | None => "nan" end.

(** The [within] counter loop over the sorted rows. *)
Fixpoint assign_ids (all : list cell) (within : list (cell * nat)) (l : list cell) : list cell :=
  match l with
  | [] => []
  | x :: l' =>
      if in_dup_ids all x then
        let k := S (lookup_nat within x) in
        Some (id_text x ++ "_" ++ zpad 2 k) :: assign_ids all ((x, k) :: within) l'
      else x :: assign_ids all within l'
  end.

Definition media_sort_cols (images : frame) : list string :=
  filter (has_col images) ["image_id"; "timestamp_iso"; "filename"; "deployment_id"].

Definition sorted_images (images : frame) : frame :=
  match media_sort_cols images with
  | [] => images
  | ks => sort_values images ks
  end.

Definition media_ids (img_sorted : frame) : list cell :=
  if has_col img_sorted "image_id" then
    let ids := map (fun r => get r "image_id") (rows img_sorted) in
    assign_ids ids [] ids
  else map (fun i => Some ("m" ++ zpad 6 i)) (seq 1 (List.length (rows img_sorted))).

Definition build_media (img_sorted : frame) : list med_rec :=
  map (fun '(r, mid) =>
         {| mediaID := mid;
            m_deploymentID := get r "deployment_id";
            timestamp := get r "timestamp_iso";
            filePath := get r "location";
            fileMediatype := Some (if has_col img_sorted "filename"
                                   then ext_to_mediatype (col_str img_sorted r "filename" "")
                                   else "application/octet-stream");
            filePublic := Some false |})
      (combine (rows img_sorted) (media_ids img_sorted)).

Definition med_required : list (string * (med_rec -> bool)) :=
  [("mediaID", fun r => is_none (mediaID r));
   ("deploymentID", fun r => is_none (m_deploymentID r));
   ("timestamp", fun r => is_none (timestamp r));
   ("filePath", fun r => is_none (filePath r));
   ("fileMediatype", fun r => is_none (fileMediatype r));
   ("filePublic", fun r => is_none (filePublic r))].

Definition check_media (m : list med_rec) : error + unit :=
  match first_missing med_required m with
  | Some (c, n) => inl (MediaIncomplete c n (List.length m))
  | None => inr tt
  end.

(** [med_out["mediaID"].duplicated()]: values seen earlier in the column. *)
Fixpoint duplicated (seen : list string) (l : list string) : list string :=
  match l with
  | [] => []
  | x :: l' => if existsb (String.eqb x) seen then x :: duplicated seen l' else duplicated (x :: seen) l'
  end.

(** [Series.unique()]: first occurrences, in order. *)
Fixpoint unique_from (seen : list string) (l : list string) : list string :=
  match l with
  | [] => []
  | x :: l' => if existsb (String.eqb x) seen then unique_from seen l' else x :: unique_from (x :: seen) l'
  end.

Definition id_values (m : list med_rec) : list string :=
  map (fun r => fillna_empty (mediaID r)) m.

Definition check_unique (m : list med_rec) : error + unit :=
  match duplicated [] (id_values m) with
  | [] => inr tt
  | ds => inl (MediaDuplicates (firstn 10 (unique_from [] ds)))
  end.

(** *** observations.csv *)
(** [_evt = img_for_obs.apply(..., result_type="expand")] on a table with no
    rows returns the table itself, and [_evt[0]] raises [KeyError]. *)
Definition events_step (img_sorted : frame) : error + unit :=
  match rows img_sorted with [] => inl (PythonError "KeyError") | _ => inr tt end.

Definition tax_row_of (f : frame) (r : row) : Classify.tax_row :=
  {| Classify.common_name := col_str f r "common_name" "";
     Classify.scientific_name_norm := col_str f r "scientific_name_norm" "";
     Classify.genus := col_str f r "genus" "";
     Classify.species := col_str f r "species" "";
     Classify.order := col_str f r "order" "";
     Classify.family := col_str f r "family" "";
     Classify.class_name := col_str f r "class" "" |}.

(** [_to_evt_iso] for one bound *)
Definition evt_bound (f : frame) (col : string) (tz : cell) (r : row) : cell :=
  if has_col f col then
    match get r col with
    | None => to_iso_utc None tz          (* NaN is neither None nor "" *)
    | Some s => if String.eqb (strip s) "" then get r "timestamp_iso" else to_iso_utc (Some s) tz
    end
  else get r "timestamp_iso".

Definition build_observations (st : prepared) (img_sorted : frame) (m : list med_rec) : list obs_rec :=
  map (fun '(r, mr) =>
         let tz := dep_tz_get (p_dep_tz st) (get r "deployment_id") (Some (p_hint st)) in
         let '(ot, sn) := Classify.classify_observation_and_scientific_name (tax_row_of img_sorted r) in
         {| observationID := Some ("obs_" ++ match mediaID mr with Some s => s | None => "nan" end);
            o_deploymentID := get r "deployment_id";
            o_mediaID := mediaID mr;
            eventStart := evt_bound img_sorted "start_time" tz r;
            eventEnd := evt_bound img_sorted "end_time" tz r;
            observationLevel := Some "media";
            observationType := Some ot;
            scientificName := Some sn |})
      (combine (rows img_sorted) m).

Definition obs_required : list (string * (obs_rec -> bool)) :=
  [("observationID", fun r => is_none (observationID r));
   ("deploymentID", fun r => is_none (o_deploymentID r));
   ("eventStart", fun r => is_none (eventStart r));
   ("eventEnd", fun r => is_none (eventEnd r));
   ("observationLevel", fun r => is_none (observationLevel r));
   ("observationType", fun r => is_none (observationType r))].

Definition check_observations (o : list obs_rec) : error + unit :=
  match first_missing obs_required o with
  | Some (c, _) => inl (ObservationsIncomplete c)
  | None => inr tt
  end.

(** *** Writing.  Schema alignment reorders and adds columns only, and
    Frictionless validation only logs; neither is modelled. *)
Definition work_dir (inp : zip_input) : string :=
  out_dir inp ++ "/WI2CamtrapDP_" ++ zip_stem inp ++ "_" ++ now_stamp inp.

Definition write_outputs (inp : zip_input) (d : list dep_rec) (m : list med_rec) (o : list obs_rec) : M string :=
  let wd := work_dir inp in
  let out := wd ++ "/output" in
  emit (EnsureOutputDir out) ;;;
  emit (WriteDeployments (out ++ "/deployments.csv") d) ;;;
  emit (WriteMedia (out ++ "/media.csv") m) ;;;
  emit (WriteObservations (out ++ "/observations.csv") o) ;;;
  emit (WriteDatapackage (out ++ "/datapackage.json")) ;;;
  (if make_zip inp then emit (WriteResultZip (wd ++ "/WI2CamtrapDP_" ++ zip_stem inp ++ "_" ++ now_stamp inp ++ ".zip"))
   else ret tt) ;;;
  ret wd.

Definition process_zip (inp : zip_input) : M string :=
  st <- lift (prepare inp) ;;
  let dep_out := build_deployments st in
  lift (camera_model_step (cameras_of st) (p_deploys st)) ;;;
  lift (check_deployments dep_out) ;;;
  let img_sorted := sorted_images (p_images st) in
  let med_out := build_media img_sorted in
  lift (check_media med_out) ;;;
  lift (check_unique med_out) ;;;
  lift (events_step img_sorted) ;;;
  let obs_out := build_observations st img_sorted med_out in
  lift (check_observations obs_out) ;;;
  write_outputs inp dep_out med_out obs_out.

(** The three tables as the run builds them, before their checks. *)
Definition built_tables (inp : zip_input) : error + (list dep_rec * list med_rec * list obs_rec) :=
  match prepare inp with
  | inl e => inl e
  | inr st =>
      let img_sorted := sorted_images (p_images st) in
      let med_out := build_media img_sorted in
      inr (build_deployments st, med_out, build_observations st img_sorted med_out)
  end.

Definition required_missing (t : list dep_rec * list med_rec * list obs_rec) : bool :=
  let '(d, m, o) := t in
  negb (is_none (first_missing dep_required d)) ||
  negb (is_none (first_missing med_required m)) ||
  negb (is_none (first_missing obs_required o)).

End Run.

(** The media tables a write log records. *)
Definition written_media (fs : list effect) : list (list med_rec) :=
  flat_map (fun ef => match ef with WriteMedia _ m => [m] | _ => [] end) fs.

(** The observations tables a write log records. *)
Definition written_observations (fs : list effect) : list (list obs_rec) :=
  flat_map (fun ef => match ef with WriteObservations _ o => [o] | _ => [] end) fs.


End Pipeline.

(** ** [_slugify_name] *)
Module Slug.
Import Py.

Definition dash : ascii := "-".

Definition replace_sp_us (l : list ascii) : list ascii :=
  map (fun c => if Ascii.eqb c " " || Ascii.eqb c "_" then dash else c) l.

(** The character class [[-a-z0-9._/]]. *)
Definition allowed (c : ascii) : bool :=
  let n := nat_of_ascii c in
  (Nat.leb 97 n && Nat.leb n 122) || (Nat.leb 48 n && Nat.leb n 57) ||
  Ascii.eqb c "-" || Ascii.eqb c "." || Ascii.eqb c "_" || Ascii.eqb c "/".

(** The class [[-./]] stripped at both ends. *)
Definition edge (c : ascii) : bool := Ascii.eqb c "-" || Ascii.eqb c "." || Ascii.eqb c "/".

Fixpoint strip_lead (l : list ascii) : list ascii :=
  match l with
  | c :: r => if edge c then strip_lead r else l
  | [] => []
  end.

Definition strip_trail (l : list ascii) : list ascii := rev (strip_lead (rev l)).

(** From the ASCII text on: replace, lower, [re.sub(r"[^-a-z0-9._/]+", "", s)],
    then the two edge substitutions. *)
Definition clean (l : list ascii) : list ascii :=
  strip_trail (strip_lead (filter allowed (map lower_char (replace_sp_us l)))).

Section Slugify.
(** Unicode NFKD normalisation on code points; the only fact used is that it
    leaves pure-ASCII text unchanged, as NFKD does. *)
Variable nfkd : list N -> list N.

(** [s.encode("ascii", "ignore").decode("ascii")] *)
Definition ascii_ignore (l : list N) : list ascii :=
  map ascii_of_N (filter (fun n => (n <? 128)%N) l).

Definition slugify_name (s : list N) : string :=
  match clean (ascii_ignore (nfkd s)) with
  | [] => "wi-project"
  | t => string_of_list_ascii t
  end.

End Slugify.

(** A Python [str] of ASCII text as code points. *)
Definition code_points (s : string) : list N := map N_of_ascii (list_ascii_of_string s).

(** [^[a-z0-9][a-z0-9\-./]*$] *)
Definition alnum (c : ascii) : bool :=
  let n := nat_of_ascii c in (Nat.leb 97 n && Nat.leb n 122) || (Nat.leb 48 n && Nat.leb n 57).

Definition slug_regex (s : string) : bool :=
  match list_ascii_of_string s with
  | c :: r => alnum c && forallb (fun d => alnum d || edge d) r
  | [] => false
  end.

End Slug.

(** ** Sample archives *)
Module Examples.
Import Frame Pipeline.

(** [pd.read_csv] reads an empty field as NaN: such a key is left out. *)
Definition mk_row (kvs : list (string * string)) : row :=
  filter (fun kv => negb (String.eqb (snd kv) "")) kvs.

Definition projects_frame : frame :=
  {| cols := ["project_id"; "project_name"]; rows := [mk_row [("project_id", "2000"); ("project_name", "Proyecto Llanos")]] |}.

Definition deploy_cols : list string :=
  ["deployment_id"; "latitude"; "longitude"; "start_date"; "end_date"].

Definition dep_row (id lat lon st en : string) : row :=
  mk_row [("deployment_id", id); ("latitude", lat); ("longitude", lon); ("start_date", st); ("end_date", en)].

Definition deploys_of (rs : list row) : frame := {| cols := deploy_cols; rows := rs |}.

Definition image_cols : list string :=
  ["image_id"; "deployment_id"; "timestamp"; "location"; "filename";
   "common_name"; "genus"; "species"; "family"; "order"; "class"].

Definition img_row (iid dep ts fn cn g sp fam ord cls : string) : row :=
  mk_row [("image_id", iid); ("deployment_id", dep); ("timestamp", ts);
          ("location", "gs://wi-bucket/2000/" ++ fn); ("filename", fn);
          ("common_name", cn); ("genus", g); ("species", sp); ("family", fam);
          ("order", ord); ("class", cls)].

Definition images_of (rs : list row) : frame := {| cols := image_cols; rows := rs |}.

(** Two photographs sharing the image_id IMG001, in the opposite of their
    time order. *)
Definition images_dup : frame :=
  images_of [img_row "IMG001" "D1" "15/01/2024 14:30" "IMG001b.JPG" "Human" "" "" "" "" "";
             img_row "IMG001" "D1" "15/01/2024 14:00" "IMG001a.JPG" "Common Opossum" "Didelphis" ""
                     "Didelphidae" "Didelphimorphia" "Mammalia"].

Definition deploy_ok : row := dep_row "D1" "4.6" "-74.1" "01/01/2024 08:00" "31/01/2024 18:00".

Definition mk_input (members : list (string * frame)) : zip_input :=
  {| zip_path := "/data/wi_export_2000.zip"; zip_stem := "wi_export_2000";
     zip_members := Some members; out_dir := "/data/out"; make_zip := false;
     timezone_hint := "America/Bogota"; now_stamp := "20240201_120000" |}.

Definition archive (deploy_rows : list row) (images : frame) : zip_input :=
  mk_input [("projects.csv", projects_frame); ("deployments.csv", deploys_of deploy_rows);
            ("images_2000.csv", images)].

(** A deployment without an end date. *)
Definition archive_no_end : zip_input :=
  archive [dep_row "D1" "4.6" "-74.1" "01/01/2024 08:00" ""] images_dup.

(** A deployment at latitude 95.0. *)
Definition archive_lat95 : zip_input :=
  archive [dep_row "D1" "95.0" "-74.1" "01/01/2024 08:00" "31/01/2024 18:00"] images_dup.

(** An image whose genus is the "No CV Result" placeholder. *)
Definition images_nocv : frame :=
  images_of [img_row "IMG001" "D1" "15/01/2024 14:30" "IMG001b.JPG" "Human" "" "" "" "" "";
             img_row "IMG002" "D1" "15/01/2024 14:00" "IMG002.JPG" "" " no CV Result " "" "" "" ""].

Definition archive_nocv : zip_input := archive [deploy_ok] images_nocv.

(** No member name contains "deploy". *)
Definition archive_without_deploy : zip_input :=
  mk_input [("projects.csv", projects_frame); ("images_2000.csv", images_dup)].


(** An image table without an image_id column. *)
Definition images_no_id : frame :=
  {| cols := ["deployment_id"; "timestamp"; "location"; "filename"];
     rows := map (fun i => mk_row [("deployment_id", "D1"); ("timestamp", "15/01/2024 14:30");
                                   ("location", "gs://wi-bucket/" ++ Py.str_of_nat i ++ ".JPG");
                                   ("filename", Py.str_of_nat i ++ ".JPG")]) (seq 1 3) |}.




Definition no_infer : string -> option Time.parsed := fun _ => None.

End Examples.

(** ** Field mappings of [process_zip] and [_build_datapackage_min] *)
Module Mappings.
Import Py.

(** [map_capture_method_from_text(txt)] for a [str] argument (the one call
    site passes [raw.iloc[0]] of an [astype(str)] column). *)
Definition map_capture_method_from_text (txt : string) : string :=
  let s := lower txt in
  if contains "manual" s || contains "bait" s || contains "lure" s then "manual"
  else if contains "time" s && contains "lapse" s then "timeLapse"
  else "activityDetection".

(** [_to_location_id(val)]: [None] is NaN (and the result [pd.NA]). *)
Definition is_dash (c : ascii) : bool := Ascii.eqb c "-".

(** [re.sub(r"[^a-z0-9]+", "-", s)]: each maximal run outside [[a-z0-9]]
    becomes one dash; [in_run] tells whether the previous character was in
    such a run. *)
Fixpoint sub_runs (in_run : bool) (l : list ascii) : list ascii :=
  match l with
  | [] => []
  | c :: r =>
      if Slug.alnum c then c :: sub_runs false r
      else if in_run then sub_runs true r
      else "-"%char :: sub_runs true r
  end.

Fixpoint strip_dash_lead (l : list ascii) : list ascii :=
  match l with
  | c :: r => if is_dash c then strip_dash_lead r else l
  | [] => []
  end.

(** [s.strip("-")] *)
Definition strip_dash (l : list ascii) : list ascii :=
  rev (strip_dash_lead (rev (strip_dash_lead l))).

Definition to_location_id (val : option string) : option string :=
  match val with
  | None => None
  | Some v =>
      if String.eqb (strip v) "" then None
      else
        let slug := string_of_list_ascii
                      (strip_dash (sub_runs false (list_ascii_of_string (lower (strip v))))) in
        Some (substring 0 64 ("loc-" ++ slug))
  end.

(** [l] holds no two consecutive dashes. *)
Fixpoint dd_free (l : list ascii) : bool :=
  match l with
  | a :: ((b :: _) as r) => negb (is_dash a && is_dash b) && dd_free r
  | _ => true
  end.

(** [re.search(r'\d+', s)]: the leftmost run of digits, taken greedily. *)
Fixpoint digit_run (l : list ascii) : list ascii :=
  match l with
  | c :: r => if Time.is_digit c then c :: digit_run r else []
  | [] => []
  end.

Fixpoint first_digits (l : list ascii) : option (list ascii) :=
  match l with
  | [] => None
  | c :: r => if Time.is_digit c then Some (digit_run l) else first_digits r
  end.

(** [_map_camera_height(row)] on the row's [sensor_height] and
    [height_other] cells ([None]: NaN or absent); the result is the height in
    centimetres or [pd.NA]. *)
Definition map_camera_height (sensor_height height_other : option string) : option nat :=
  match sensor_height with
  | None => None
  | Some sh =>
      let v := lower (strip sh) in
      if String.eqb v "chest height" then Some 100
      else if String.eqb v "knee height" then Some 50
      else if String.eqb v "other" then
        match height_other with
        | None => None
        | Some ho =>
            let h := strip ho in
            if String.eqb h "" then None
            else match first_digits (list_ascii_of_string h) with
                 | Some ds => Some (int_of_digits (string_of_list_ascii ds))
                 | None => None
                 end
        end
      else None
  end.

(** [_map_feature_type(val)] *)
Definition feature_mappings : list (string * string) :=
  [("road - paved", "roadPaved"); ("paved road", "roadPaved"); ("road paved", "roadPaved");
   ("paved", "roadPaved");
   ("road - dirt", "roadDirt"); ("dirt road", "roadDirt"); ("road dirt", "roadDirt");
   ("dirt", "roadDirt"); ("unpaved road", "roadDirt");
   ("trail - hiking", "trailHiking"); ("hiking trail", "trailHiking");
   ("trail hiking", "trailHiking"); ("trail", "trailHiking"); ("hiking", "trailHiking");
   ("trail - game", "trailGame"); ("game trail", "trailGame"); ("trail game", "trailGame");
   ("animal trail", "trailGame");
   ("road - underpass", "roadUnderpass"); ("underpass", "roadUnderpass");
   ("road - overpass", "roadOverpass"); ("overpass", "roadOverpass");
   ("road - bridge", "roadBridge"); ("bridge", "roadBridge");
   ("water source", "waterSource"); ("water", "waterSource"); ("watering hole", "waterSource");
   ("pond", "waterSource"); ("stream", "waterSource");
   ("nest site", "nestSite"); ("nest", "nestSite");
   ("fruiting tree", "fruitingTree"); ("fruit tree", "fruitingTree"); ("tree", "fruitingTree")].

Definition valid_values : list string :=
  ["roadpaved"; "roaddirt"; "trailhiking"; "trailgame"; "roadunderpass"; "roadoverpass";
   "roadbridge"; "culvert"; "burrow"; "nestsite"; "carcass"; "watersource"; "fruitingtree"].

Definition camel_case_map : list (string * string) :=
  [("roadpaved", "roadPaved"); ("roaddirt", "roadDirt"); ("trailhiking", "trailHiking");
   ("trailgame", "trailGame"); ("roadunderpass", "roadUnderpass");
   ("roadoverpass", "roadOverpass"); ("roadbridge", "roadBridge"); ("culvert", "culvert");
   ("burrow", "burrow"); ("nestsite", "nestSite"); ("carcass", "carcass");
   ("watersource", "waterSource"); ("fruitingtree", "fruitingTree")].

(** [d.get(k)] on a dict given by its (key, value) pairs *)
Fixpoint assoc (k : string) (l : list (string * string)) : option string :=
  match l with
  | [] => None
  | (k', v) :: r => if String.eqb k k' then Some v else assoc k r
  end.

(** [.replace(" ", "").replace("-", "").replace("_", "")] *)
Definition compact (s : string) : string :=
  string_of_list_ascii
    (filter (fun c => negb (Ascii.eqb c " " || Ascii.eqb c "-" || Ascii.eqb c "_"))
            (list_ascii_of_string s)).

Definition map_feature_type (val : option string) : option string :=
  match val with
  | None => None
  | Some v =>
      let vn := strip v in
      if String.eqb vn "" || existsb (String.eqb (lower vn)) ["none"; "n/a"; "na"; "other"] then None
      else
        let vl := lower vn in
        match assoc vl feature_mappings with
        | Some r => Some r
        | None =>
            let vc := compact vl in
            if existsb (String.eqb vc) valid_values then assoc vc camel_case_map else None
        end
  end.

(** The Camtrap-DP [featureType] vocabulary. *)
Definition feature_vocabulary : list string :=
  ["roadPaved"; "roadDirt"; "trailHiking"; "trailGame"; "roadUnderpass"; "roadOverpass";
   "roadBridge"; "culvert"; "burrow"; "nestSite"; "carcass"; "waterSource"; "fruitingTree"].

(** [_map_classification_probability(val)].  [float(s)] is a parameter:
    [Some q] for a finite value, [None] where it raises or gives NaN or an
    infinity (every comparison with those sends the code to [pd.NA] too). *)
Section Probability.
Variable py_float : string -> option Q.

End Probability.

(** [normalize_license(lic_str)] inside [_build_licenses_array]; [None] is
    Python [None] or NaN. *)
Definition license_mapping : list (string * string) :=
  [("CC-BY", "CC-BY-4.0"); ("CC-BY-NC", "CC-BY-NC-4.0"); ("CC-BY-SA", "CC-BY-SA-4.0");
   ("CC-BY-NC-SA", "CC-BY-NC-SA-4.0"); ("CC0", "CC0-1.0"); ("Public Domain", "CC0-1.0")].

Definition normalize_license (lic : option string) : string :=
  match lic with
  | None => "CC-BY-4.0"
  | Some l =>
      if String.eqb l "" || String.eqb (strip l) "" || existsb (String.eqb (lower l)) ["nan"; "none"]
      then "CC-BY-4.0"
      else let c := strip l in
           match assoc c license_mapping with Some r => r | None => c end
  end.

(** [_transform_sampling_design(val)] on [str(val)]. *)
Definition transform_sampling_design (val : string) : string :=
  let v := strip val in
  if String.eqb v "Systematic" then "systematicRandom"
  else if String.eqb v "Randomized" then "simpleRandom"
  else if String.eqb v "Convenience" then "opportunistic"
  else if String.eqb v "Targeted" then "targeted"
  else v.




End Mappings.

(** * Properties *)

(** ** The classifier *)
Module ClassifyFacts.
Import Py Classify.

Lemma classify_eq_spec (row : tax_row) :
  classify_observation_and_scientific_name row = classify_spec row.
Proof. reflexivity. Qed.

Lemma classify_non_sentinel (row : tax_row) :
  ~ In (lower (strip (common_name row))) sentinels ->
  classify_observation_and_scientific_name row = ("animal", taxonomic_cascade row).
Proof.
  intros H. rewrite classify_eq_spec. unfold classify_spec, is_cn.
  repeat match goal with
         | |- context [String.eqb (lower (strip (common_name row))) ?b] =>
             let E := fresh "E" in
             destruct (String.eqb (lower (strip (common_name row))) b) eqn:E;
             [apply String.eqb_eq in E; exfalso; apply H; rewrite E; simpl; tauto |]
         end.
  reflexivity.
Qed.

(** C3: the classifier is the documented precedence: the human sentinels
    first (the genus+species composite if present, else "Homo sapiens"),
    then the other sentinels, and otherwise type "animal" with the cascade
    genus+species (only with a space), genus, family, order, class,
    "Animalia", which reads no common name.  A Didelphis row without species
    gives ("animal", "Didelphis"); a "Human" row with empty scientific fields
    gives ("human", "Homo sapiens"). *)
Theorem classify_precedence :
  (forall row, classify_observation_and_scientific_name row = classify_spec row) /\
  (forall row, ~ In (lower (strip (common_name row))) sentinels ->
     classify_observation_and_scientific_name row = ("animal", taxonomic_cascade row)) /\
  classify_observation_and_scientific_name
    {| common_name := "Common Opossum"; scientific_name_norm := "Didelphis";
       genus := "Didelphis"; species := ""; order := "Didelphimorphia";
       family := "Didelphidae"; class_name := "Mammalia" |} = ("animal", "Didelphis") /\
  classify_observation_and_scientific_name
    {| common_name := "Human"; scientific_name_norm := ""; genus := ""; species := "";
       order := ""; family := ""; class_name := "" |} = ("human", "Homo sapiens").
Proof.
  split; [exact classify_eq_spec |].
  split; [exact classify_non_sentinel |].
  split; reflexivity.
Qed.

Lemma classify_precedence_witness :
  ~ In (lower (strip "Opossum")) sentinels /\
  classify_observation_and_scientific_name
    {| common_name := "Opossum"; scientific_name_norm := "Didelphis marsupialis";
       genus := "Didelphis"; species := "marsupialis"; order := ""; family := "";
       class_name := "" |} = ("animal", "Didelphis marsupialis").
Proof.
  assert (H : ~ In (lower (strip "Opossum")) sentinels) by (simpl; intuition discriminate).
  split; [exact H |].
  exact (proj1 (proj2 classify_precedence)
           {| common_name := "Opossum"; scientific_name_norm := "Didelphis marsupialis";
              genus := "Didelphis"; species := "marsupialis"; order := ""; family := "";
              class_name := "" |} H).
Defined.

End ClassifyFacts.

(** ** The run *)
Module RunFacts.
Import Py Frame Pipeline.

Section WithTz.
Variable db : Time.tzdb.
Variable infer : string -> option Time.parsed.

(** C1: when a required column of a built table has a missing value, the
    run raises and the write log is left as it was: no directory is made
    and no CSV or datapackage.json is written. *)
Theorem required_fail_fast (inp : zip_input) (t : list dep_rec * list med_rec * list obs_rec)
    (fs : list effect) :
  built_tables db infer inp = inr t -> required_missing t = true ->
  exists e, process_zip db infer inp fs = (inl e, fs).
Proof.
  intros Hb Hm. unfold built_tables in Hb. unfold process_zip.
  destruct (prepare db infer inp) as [e | st]; [discriminate |].
  injection Hb as <-. unfold required_missing in Hm.
  cbv beta iota delta [bind lift].
  destruct (camera_model_step _ _) as [e | []]; [eexists; reflexivity |].
  unfold check_deployments.
  destruct (first_missing dep_required (build_deployments st)) as [[c n] |];
    [eexists; reflexivity |].
  unfold check_media.
  destruct (first_missing med_required _) as [[c n] |]; [eexists; reflexivity |].
  destruct (check_unique _) as [e | []]; [eexists; reflexivity |].
  destruct (events_step _) as [e | []]; [eexists; reflexivity |].
  unfold check_observations.
  destruct (first_missing obs_required _) as [[c n] |]; [eexists; reflexivity |].
  discriminate.
Qed.

End WithTz.

End RunFacts.

(** ** Decimal formatting *)
Module PyFacts.
Import Py.

Lemma list_ascii_of_string_app (a b : string) :
  list_ascii_of_string (a ++ b) = (list_ascii_of_string a ++ list_ascii_of_string b)%list.
Proof. induction a as [| c a IH]; simpl; [reflexivity | now rewrite IH]. Qed.

Lemma dec_digits_spec (fuel n : nat) :
  n <= fuel ->
  Forall (fun d => d < 10) (dec_digits fuel n) /\
  fold_left (fun acc d => acc * 10 + d) (dec_digits fuel n) 0 = n.
Proof.
  revert n; induction fuel as [| f IH]; intros n Hn; cbn [dec_digits].
  - assert (n = 0) by lia; subst. split; [constructor; [lia | constructor] | reflexivity].
  - destruct (Nat.ltb n 10) eqn:E.
    + apply Nat.ltb_lt in E. split; [constructor; [lia | constructor] | reflexivity].
    + apply Nat.ltb_ge in E.
      assert (Hq : n / 10 <= f).
      { assert (n / 10 < n) by (apply Nat.div_lt; lia). lia. }
      destruct (IH (n / 10) Hq) as [Hd Hv].
      split.
      * apply Forall_app; split; [exact Hd | constructor; [apply Nat.mod_upper_bound; lia | constructor]].
      * rewrite fold_left_app, Hv. cbn [fold_left].
        pose proof (Nat.div_mod_eq n 10). lia.
Qed.

Lemma fold_digit_chars (l : list nat) (acc : nat) :
  Forall (fun d => d < 10) l ->
  fold_left (fun acc c => acc * 10 + (nat_of_ascii c - 48)) (map digit_char l) acc =
  fold_left (fun acc d => acc * 10 + d) l acc.
Proof.
  revert acc; induction l as [| d l IH]; intros acc H; cbn [map fold_left]; [reflexivity |].
  inversion H; subst. unfold digit_char.
  rewrite nat_ascii_embedding by lia.
  replace (48 + d - 48) with d by lia. now apply IH.
Qed.

Lemma str_of_nat_value (n : nat) : int_of_digits (str_of_nat n) = n.
Proof.
  unfold int_of_digits, str_of_nat. rewrite list_ascii_of_string_of_list_ascii.
  destruct (dec_digits_spec n n (le_n n)) as [Hd Hv].
  rewrite fold_digit_chars by exact Hd. exact Hv.
Qed.

Lemma fold_zeros (k : nat) :
  fold_left (fun acc c => acc * 10 + (nat_of_ascii c - 48)) (repeat "0"%char k) 0 = 0.
Proof. induction k as [| k IH]; [reflexivity | exact IH]. Qed.

Lemma zpad_value (w n : nat) : int_of_digits (zpad w n) = n.
Proof.
  pose proof (str_of_nat_value n) as H. unfold int_of_digits in *. unfold zpad.
  rewrite list_ascii_of_string_app, list_ascii_of_string_of_list_ascii, fold_left_app, fold_zeros.
  exact H.
Qed.

Lemma zpad_inj (w a b : nat) : zpad w a = zpad w b -> a = b.
Proof.
  intros H. rewrite <- (zpad_value w a), <- (zpad_value w b), H. reflexivity.
Qed.

Lemma append_cancel_l (p a b : string) : p ++ a = p ++ b -> a = b.
Proof. induction p as [| c p IH]; simpl; [tauto | intros H; injection H; exact IH]. Qed.

End PyFacts.

(** ** [sort_values] is a stable sort *)
Module FrameFacts.
Import Frame.








Lemma insert_perm (ks : list string) (x : row) (l : list row) :
  Permutation (insert_sorted ks x l) (x :: l).
Proof.
  induction l as [| y l IH]; simpl; [reflexivity |].
  destruct (cmp_keys ks x y); try reflexivity.
  rewrite IH. apply perm_swap.
Qed.

Lemma sort_rows_perm (ks : list string) (l : list row) : Permutation (sort_rows ks l) l.
Proof.
  induction l as [| x l IH]; simpl; [reflexivity |].
  rewrite insert_perm. now apply perm_skip.
Qed.





End FrameFacts.

(** ** mediaID assignment *)
Module MediaFacts.
Import Py Frame Pipeline.







Lemma NoDup_map_inj {A B} (f : A -> B) (l : list A) :
  (forall a b, f a = f b -> a = b) -> NoDup l -> NoDup (map f l).
Proof.
  intros Hf Hl. induction Hl as [| a l Ha Hl IH]; simpl; constructor; [| exact IH].
  intros Hin. apply in_map_iff in Hin as (b & Hb & Hbl). apply Hf in Hb. subst. contradiction.
Qed.

Lemma synthesized_ids_NoDup (n : nat) :
  NoDup (map (fun i => Some ("m" ++ zpad 6 i)) (seq 1 n)).
Proof.
  apply NoDup_map_inj; [| apply seq_NoDup].
  intros a b H. injection H as H.
  exact (PyFacts.zpad_inj 6 a b H).
Qed.

Lemma sorted_images_cols (im : frame) : cols (sorted_images im) = cols im.
Proof. unfold sorted_images. destruct (media_sort_cols im); reflexivity. Qed.

Lemma sorted_images_perm (im : frame) : Permutation (rows (sorted_images im)) (rows im).
Proof.
  unfold sorted_images. destruct (media_sort_cols im); [reflexivity |].
  apply FrameFacts.sort_rows_perm.
Qed.

Lemma sorted_images_has_col (im : frame) (c : string) :
  has_col (sorted_images im) c = has_col im c.
Proof. unfold has_col. now rewrite sorted_images_cols. Qed.

Lemma duplicated_nil (seen l : list string) :
  duplicated seen l = [] -> NoDup l /\ Forall (fun x => ~ In x seen) l.
Proof.
  revert seen; induction l as [| x l IH]; intros seen H; [split; constructor |].
  cbn [duplicated] in H. destruct (existsb (String.eqb x) seen) eqn:E; [discriminate |].
  destruct (IH (x :: seen) H) as [Hn Hf].
  assert (Hx : ~ In x seen).
  { intros Hin. assert (existsb (String.eqb x) seen = true) as C
      by (apply existsb_exists; exists x; split; [exact Hin | apply String.eqb_refl]).
    congruence. }
  split.
  - constructor; [| exact Hn]. intros Hin.
    rewrite Forall_forall in Hf. apply (Hf x Hin). left; reflexivity.
  - constructor; [exact Hx |]. eapply Forall_impl; [| exact Hf].
    intros y Hy Hin. apply Hy. right; exact Hin.
Qed.

Lemma check_unique_NoDup (m : list med_rec) :
  check_unique m = inr tt -> NoDup (map mediaID m).
Proof.
  unfold check_unique. destruct (duplicated [] (id_values m)) eqn:E; [| discriminate].
  intros _. apply duplicated_nil in E as [E _]. unfold id_values in E.
  rewrite <- map_map in E. exact (NoDup_map_inv _ _ E).
Qed.

Lemma first_missing_none_mediaID (m : list med_rec) :
  check_media m = inr tt -> Forall (fun c => c <> None) (map mediaID m).
Proof.
  unfold check_media. cbn [first_missing med_required].
  destruct (Nat.ltb 0 (count_na (fun r => is_none (mediaID r)) m)) eqn:E; [discriminate |].
  intros _. apply Nat.ltb_ge in E. unfold count_na in E.
  apply Forall_map, Forall_forall. intros r Hr Hn.
  assert (In r (filter (fun r => is_none (mediaID r)) m)) as Hf
    by (apply filter_In; split; [exact Hr | now rewrite Hn]).
  destruct (filter (fun r => is_none (mediaID r)) m); [contradiction | simpl in E; lia].
Qed.

End MediaFacts.

(** ** Successful and failing runs *)
Module RunShape.
Import Py Frame Pipeline.

Section WithTz.
Variable db : Time.tzdb.
Variable infer : string -> option Time.parsed.

Lemma written_media_app (a b : list effect) :
  written_media (a ++ b)%list = (written_media a ++ written_media b)%list.
Proof. unfold written_media. apply flat_map_app. Qed.

(** A run that returns has passed every check, and its writes record the
    media table it built. *)
Lemma process_zip_success (inp : zip_input) (fs fs' : list effect) (r : string) :
  process_zip db infer inp fs = (inr r, fs') ->
  exists st,
    prepare db infer inp = inr st /\
    camera_model_step (cameras_of st) (p_deploys st) = inr tt /\
    check_deployments (build_deployments st) = inr tt /\
    check_media (build_media (sorted_images (p_images st))) = inr tt /\
    check_unique (build_media (sorted_images (p_images st))) = inr tt /\
    events_step (sorted_images (p_images st)) = inr tt /\
    check_observations (build_observations db infer st (sorted_images (p_images st))
                          (build_media (sorted_images (p_images st)))) = inr tt /\
    written_media fs' = (written_media fs ++ [build_media (sorted_images (p_images st))])%list.
Proof.
  unfold process_zip. cbv beta iota delta [bind lift].
  destruct (prepare db infer inp) as [e | st] eqn:Hp; [discriminate |].
  destruct (camera_model_step _ _) as [e | []] eqn:Hc; [discriminate |].
  destruct (check_deployments _) as [e | []] eqn:Hd; [discriminate |].
  destruct (check_media _) as [e | []] eqn:Hm; [discriminate |].
  destruct (check_unique _) as [e | []] eqn:Hu; [discriminate |].
  destruct (events_step _) as [e | []] eqn:Hev; [discriminate |].
  destruct (check_observations _) as [e | []] eqn:Ho; [discriminate |].
  intros H. exists st. do 7 (split; [first [reflexivity | assumption] |]).
  unfold write_outputs, emit, ret in H.
  destruct (make_zip inp); injection H as _ <-;
    rewrite ?written_media_app; unfold written_media; cbn [flat_map];
    rewrite ?app_nil_r; reflexivity.
Qed.


End WithTz.
End RunShape.

(** ** mediaID claims *)
Module MediaClaims.
Import Py Frame Pipeline Examples.

Lemma map_snd_combine {A B} (a : list A) (b : list B) :
  length a = length b -> map snd (combine a b) = b.
Proof.
  revert b; induction a as [| x a IH]; intros [| y b] H; simpl in *; try discriminate; [reflexivity |].
  f_equal. apply IH. lia.
Qed.

Lemma build_media_ids (s : frame) :
  length (media_ids s) = length (rows s) ->
  map mediaID (build_media s) = media_ids s /\ length (build_media s) = length (rows s).
Proof.
  intros H. unfold build_media.
  split.
  - rewrite map_map.
    rewrite <- (map_snd_combine (rows s) (media_ids s)) at 2 by (symmetry; exact H).
    apply map_ext. intros [r m]. reflexivity.
  - rewrite length_map, length_combine, H. apply Nat.min_id.
Qed.




(** C10: without an image_id column the sorted rows get "m000001",
    "m000002", ... ([f"m{i:06d}"], one per row in sorted order), which are
    present and pairwise distinct; three rows get "m000001" to "m000003". *)
Theorem synthesized_media_ids :
  (forall im : frame, has_col im "image_id" = false ->
     media_ids (sorted_images im) = map (fun i => Some ("m" ++ zpad 6 i)) (seq 1 (length (rows im))) /\
     length (build_media (sorted_images im)) = length (rows im) /\
     map mediaID (build_media (sorted_images im)) = media_ids (sorted_images im) /\
     NoDup (map mediaID (build_media (sorted_images im))) /\
     Forall (fun c => c <> None) (map mediaID (build_media (sorted_images im)))) /\
  media_ids (sorted_images images_no_id) = [Some "m000001"; Some "m000002"; Some "m000003"].
Proof.
  split; [| vm_compute; reflexivity].
  intros im H.
  assert (Hc : has_col (sorted_images im) "image_id" = false)
    by (rewrite MediaFacts.sorted_images_has_col; exact H).
  assert (Hl : length (rows (sorted_images im)) = length (rows im))
    by apply (Permutation_length (MediaFacts.sorted_images_perm im)).
  assert (Hids : media_ids (sorted_images im) = map (fun i => Some ("m" ++ zpad 6 i)) (seq 1 (length (rows im)))).
  { unfold media_ids. rewrite Hc, Hl. reflexivity. }
  assert (Hlen : length (media_ids (sorted_images im)) = length (rows (sorted_images im))).
  { rewrite Hids, length_map, length_seq. symmetry; exact Hl. }
  destruct (build_media_ids _ Hlen) as [Hm Hb].
  split; [exact Hids |].
  split; [rewrite Hb; exact Hl |].
  split; [exact Hm |].
  rewrite Hm, Hids. split; [apply MediaFacts.synthesized_ids_NoDup |].
  apply Forall_map, Forall_forall. intros i _. discriminate.
Qed.

Lemma synthesized_media_ids_witness :
  has_col images_no_id "image_id" = false /\
  media_ids (sorted_images images_no_id) = map (fun i => Some ("m" ++ zpad 6 i)) (seq 1 3).
Proof.
  assert (H : has_col images_no_id "image_id" = false) by (vm_compute; reflexivity).
  split; [exact H |].
  exact (proj1 (proj1 synthesized_media_ids images_no_id H)).
Defined.

End MediaClaims.

(** ** Run claims *)
Module RunClaims.
Import Py Frame Pipeline Examples.

Lemma required_fail_fast_witness :
  let t := match built_tables Time.example_db no_infer archive_no_end with
           | inr t => t | inl _ => ([], [], []) end in
  built_tables Time.example_db no_infer archive_no_end = inr t /\
  required_missing t = true /\
  exists e, process_zip Time.example_db no_infer archive_no_end [] = (inl e, []).
Proof.
  intros t.
  assert (Hb : built_tables Time.example_db no_infer archive_no_end = inr t) by (vm_compute; reflexivity).
  assert (Hm : required_missing t = true) by (vm_compute; reflexivity).
  split; [exact Hb |]. split; [exact Hm |].
  exact (RunFacts.required_fail_fast Time.example_db no_infer archive_no_end t [] Hb Hm).
Defined.

End RunClaims.

(** ** The "No CV Result" report *)
Module NoCVFacts.
Import Py Frame Pipeline.

Lemma add_issue_new (acc : list (string * list issue)) (i : issue) :
  ~ In (is_field i) (map fst acc) -> add_issue acc i = (acc ++ [(is_field i, [i])])%list.
Proof.
  induction acc as [| [f l] acc IH]; intros H; simpl; [reflexivity |].
  simpl in H. destruct (String.eqb f (is_field i)) eqn:E.
  - apply String.eqb_eq in E. exfalso; apply H; left; exact E.
  - rewrite IH; [reflexivity | tauto].
Qed.

Lemma add_issue_last (acc : list (string * list issue)) (f : string) (l : list issue) (i : issue) :
  ~ In f (map fst acc) -> is_field i = f ->
  add_issue (acc ++ [(f, l)])%list i = (acc ++ [(f, l ++ [i])%list])%list.
Proof.
  intros H Hi. induction acc as [| [g m] acc IH]; simpl.
  - rewrite Hi, String.eqb_refl. reflexivity.
  - simpl in H. destruct (String.eqb g (is_field i)) eqn:E.
    + apply String.eqb_eq in E. exfalso; apply H; left; congruence.
    + rewrite IH; [reflexivity | tauto].
Qed.

Lemma fold_add_last (acc : list (string * list issue)) (f : string) (g l : list issue) :
  ~ In f (map fst acc) -> Forall (fun i => is_field i = f) g ->
  fold_left add_issue g (acc ++ [(f, l)])%list = (acc ++ [(f, l ++ g)%list])%list.
Proof.
  intros H Hg. revert l. induction Hg as [| i g Hi Hg IH]; intros l; simpl.
  - now rewrite app_nil_r.
  - rewrite add_issue_last by assumption. rewrite IH, <- app_assoc. reflexivity.
Qed.

Lemma fold_add_group (acc : list (string * list issue)) (f : string) (g : list issue) :
  ~ In f (map fst acc) -> Forall (fun i => is_field i = f) g ->
  fold_left add_issue g acc = match g with [] => acc | _ => (acc ++ [(f, g)])%list end.
Proof.
  intros H Hg. destruct Hg as [| i g Hi Hg]; [reflexivity |].
  simpl. rewrite add_issue_new by (rewrite Hi; exact H). rewrite Hi.
  rewrite fold_add_last by assumption. reflexivity.
Qed.

Lemma field_issues_field (images : frame) (f : string) :
  Forall (fun i => is_field i = f) (field_issues images f).
Proof.
  unfold field_issues. destruct (has_col images f); [| constructor].
  apply Forall_map, Forall_forall. intros; reflexivity.
Qed.

(** Grouping the issues, listed field by field, gives one entry per field
    with issues, in the order of the fields. *)
Lemma issues_by_field_groups (images : frame) (fields : list string) (acc : list (string * list issue)) :
  NoDup fields -> (forall f, In f fields -> ~ In f (map fst acc)) ->
  fold_left add_issue (flat_map (field_issues images) fields) acc =
  (acc ++ map (fun f => (f, field_issues images f))
              (filter (fun f => Nat.ltb 0 (length (field_issues images f))) fields))%list.
Proof.
  revert acc. induction fields as [| f fields IH]; intros acc Hnd Hacc; simpl.
  - now rewrite app_nil_r.
  - inversion Hnd as [| f' fields' Hf Hnd']; subst.
    rewrite fold_left_app.
    rewrite (fold_add_group acc f (field_issues images f));
      [| apply Hacc; left; reflexivity | apply field_issues_field].
    destruct (field_issues images f) as [| i g] eqn:Ef; simpl.
    + apply IH; [exact Hnd' |]. intros x Hx. apply Hacc. right; exact Hx.
    + rewrite IH; [rewrite <- app_assoc, Ef; reflexivity | exact Hnd' |].
      intros x Hx. rewrite map_app. simpl. intros Hin. apply in_app_or in Hin as [Hin | [Hin | []]].
      * exact (Hacc x (or_intror Hx) Hin).
      * subst. contradiction.
Qed.

Lemma in_enumerate_from (A : Type) (l : list A) (k : nat) (x : A) :
  In x l -> exists n, In (n, x) (combine (seq k (length l)) l).
Proof.
  revert k; induction l as [| y l IH]; intros k H; [destruct H |].
  destruct H as [<- | H].
  - exists k. left; reflexivity.
  - destruct (IH (S k) H) as [n Hn]. exists n. right; exact Hn.
Qed.

Lemma field_issues_nonempty (images : frame) (f : string) (r : row) :
  has_col images f = true -> In r (rows images) -> is_no_cv images f r = true ->
  field_issues images f <> [].
Proof.
  intros Hc Hr Hn. unfold field_issues. rewrite Hc.
  destruct (in_enumerate_from _ (rows images) 0 r Hr) as [n Hin].
  intros E. apply map_eq_nil in E.
  assert (In (n, r) (filter (fun ir => is_no_cv images f (snd ir)) (enumerate (rows images)))) as H
    by (apply filter_In; split; [exact Hin | exact Hn]).
  rewrite E in H. destruct H.
Qed.

End NoCVFacts.

Module NoCVClaims.
Import Py Frame Pipeline Examples.

Section WithTz.
Variable db : Time.tzdb.
Variable infer : string -> option Time.parsed.

(** C4: when a checked field (common_name, genus, species, family, order)
    of the images member holds "No CV Result" in some row (case and
    surrounding blanks ignored), the run raises the report before any table
    is built and with no write; the report has one block per field with
    issues, in the checked order, each counting all of that field's affected
    rows and listing the (row, filename) of at most the first 8. *)
Theorem nocv_gate (inp : zip_input) (zf : list (string * frame)) (images : frame)
    (f : string) (r : row) (fs : list effect) :
  zip_members inp = Some zf -> load_csv_from_zip zf "images" = images ->
  In f fields_to_check -> has_col images f = true -> In r (rows images) ->
  is_no_cv images f r = true ->
  process_zip db infer inp fs = (inl (nocv_error zf (nocv_issues images)), fs) /\
  built_tables db infer inp = inl (nocv_error zf (nocv_issues images)) /\
  issues_by_field (nocv_issues images) =
    map (fun g => (g, field_issues images g))
        (filter (fun g => Nat.ltb 0 (length (field_issues images g))) fields_to_check) /\
  In f (map blk_field (map block_of (issues_by_field (nocv_issues images)))) /\
  Forall (fun b => length (blk_rows b) <= 8 /\
                   blk_rows b = map (fun i => (is_row i, is_filename i)) (firstn 8 (field_issues images (blk_field b))) /\
                   blk_count b = length (field_issues images (blk_field b)))
         (map block_of (issues_by_field (nocv_issues images))).
Proof.
  intros Hz Himg Hf Hc Hr Hn.
  pose proof (NoCVFacts.field_issues_nonempty images f r Hc Hr Hn) as Hne.
  assert (He : is_empty images = false).
  { unfold is_empty. destruct (rows images); [destruct Hr |].
    unfold has_col in Hc. destruct (cols images); [discriminate | reflexivity]. }
  assert (Hg : issues_by_field (nocv_issues images) =
                 map (fun g => (g, field_issues images g))
                     (filter (fun g => Nat.ltb 0 (length (field_issues images g))) fields_to_check)).
  { unfold nocv_issues, issues_by_field. rewrite He.
    rewrite NoCVFacts.issues_by_field_groups; [reflexivity | |].
    - unfold fields_to_check. repeat constructor; simpl; intuition discriminate.
    - intros x _ []. }
  assert (Hp : prepare db infer inp = inl (nocv_error zf (nocv_issues images))).
  { unfold prepare. rewrite Hz, Himg.
    destruct (nocv_issues images) eqn:E; [| reflexivity].
    exfalso. unfold nocv_issues in E. rewrite He in E.
    destruct (field_issues images f) as [| i l] eqn:Ef; [contradiction |].
    assert (In i (flat_map (field_issues images) fields_to_check)) as Hi
      by (apply in_flat_map; exists f; split; [exact Hf | rewrite Ef; left; reflexivity]).
    rewrite E in Hi. destruct Hi. }
  split; [unfold process_zip; cbv beta iota delta [bind lift]; rewrite Hp; reflexivity |].
  split; [unfold built_tables; rewrite Hp; reflexivity |].
  split; [exact Hg |].
  rewrite Hg. split.
  - rewrite !map_map. rewrite (map_ext _ (fun g => g)) by reflexivity.
    rewrite map_id. apply filter_In. split; [exact Hf |].
    apply Nat.ltb_lt. destruct (field_issues images f); [contradiction | simpl; lia].
  - rewrite map_map. apply Forall_map, Forall_forall. intros g _. unfold block_of.
    cbn [blk_rows blk_count blk_field fst snd].
    split; [rewrite length_map, length_firstn; lia |]. split; reflexivity.
Qed.

End WithTz.

Lemma nocv_gate_witness :
  process_zip Time.example_db no_infer archive_nocv [] =
    (inl (nocv_error [("projects.csv", projects_frame); ("deployments.csv", deploys_of [deploy_ok]);
                      ("images_2000.csv", images_nocv)] (nocv_issues images_nocv)), []) /\
  nocv_issues images_nocv <> [].
Proof.
  split.
  - refine (proj1 (nocv_gate Time.example_db no_infer archive_nocv _ images_nocv "genus"
                     (img_row "IMG002" "D1" "15/01/2024 14:00" "IMG002.JPG" "" " no CV Result " "" "" "" "")
                     [] _ _ _ _ _ _)); vm_compute; try reflexivity.
    + right; left; reflexivity.
    + right; left; reflexivity.
  - vm_compute. discriminate.
Defined.

End NoCVClaims.

(** ** Coordinates *)
Module CoordFacts.
Import Py Frame Pipeline.





Section WithTz.
Variable db : Time.tzdb.
Variable infer : string -> option Time.parsed.








End WithTz.
End CoordFacts.

Module CoordClaims.
Import Py Frame Pipeline Examples.

Section WithTz.
Variable db : Time.tzdb.
Variable infer : string -> option Time.parsed.


End WithTz.



End CoordClaims.

(** ** Missing members *)
Module MemberClaims.
Import Py Frame Pipeline Examples.

Lemma find_none_all {A} (p : A -> bool) (l : list A) :
  (forall x, In x l -> p x = false) -> find p l = None.
Proof.
  induction l as [| x l IH]; intros H; simpl; [reflexivity |].
  rewrite (H x (or_introl eq_refl)). apply IH. intros y Hy. apply H. right; exact Hy.
Qed.

Lemma load_missing (zf : list (string * frame)) (name : string) :
  (forall m, In m zf -> (endswith ".csv" (lower (fst m)) && contains (lower name) (lower (fst m))) = false) ->
  load_csv_from_zip zf name = empty_frame.
Proof. intros H. unfold load_csv_from_zip. rewrite find_none_all by exact H. reflexivity. Qed.

Section WithTz.
Variable db : Time.tzdb.
Variable infer : string -> option Time.parsed.

Lemma iso_column_error (deploys : frame) (col : string) (tzs : list cell) (e : error) :
  iso_column db infer deploys col tzs = inl e -> e = PythonError "ValueError".
Proof.
  unfold iso_column. destruct (has_col deploys col); [discriminate |].
  destruct (rows deploys); [discriminate | intros H; injection H as <-; reflexivity].
Qed.

Lemma prepare_deploys (inp : zip_input) (zf : list (string * frame)) (st : prepared) :
  zip_members inp = Some zf -> prepare db infer inp = inr st ->
  p_deploys st = load_csv_from_zip zf "deploy".
Proof.
  intros Hz. unfold prepare. rewrite Hz. cbv zeta.
  destruct (nocv_issues _); [| discriminate].
  destruct (iso_column db infer _ "start_date" _); [discriminate |].
  destruct (iso_column db infer _ "end_date" _); [discriminate |].
  destruct (normalize_images db infer _ _ _); [discriminate |].
  intros H. injection H as <-. reflexivity.
Qed.

End WithTz.

(** C9 (as amended): without an images member the run raises a bare
    Python error ([AttributeError] from [images.get("genus", "").fillna],
    or first a [ValueError] from the deployment dates) before any write;
    without a deploy member the deployments table is empty and passes its
    check, and the sample archive without one is processed to the end,
    whatever pandas' inference parser does. *)
Theorem missing_members :
  (forall (db : Time.tzdb) (infer : string -> option Time.parsed) (inp : zip_input)
          (zf : list (string * frame)) (fs : list effect),
     zip_members inp = Some zf ->
     (forall m, In m zf -> (endswith ".csv" (lower (fst m)) && contains "images" (lower (fst m))) = false) ->
     exists kind, process_zip db infer inp fs = (inl (PythonError kind), fs) /\
                  In kind ["ValueError"; "AttributeError"]) /\
  (forall (db : Time.tzdb) (infer : string -> option Time.parsed) (inp : zip_input)
          (zf : list (string * frame)) (st : prepared),
     zip_members inp = Some zf ->
     (forall m, In m zf -> (endswith ".csv" (lower (fst m)) && contains "deploy" (lower (fst m))) = false) ->
     prepare db infer inp = inr st ->
     build_deployments st = [] /\ check_deployments (build_deployments st) = inr tt) /\
  (forall infer, fst (process_zip Time.example_db infer archive_without_deploy []) =
                 inr "/data/out/WI2CamtrapDP_wi_export_2000_20240201_120000").
Proof.
  split; [| split].
  - intros db infer inp zf fs Hz Hm.
    assert (Hi : load_csv_from_zip zf "images" = empty_frame) by (apply load_missing; exact Hm).
    unfold process_zip. cbv beta iota delta [bind lift]. unfold prepare. rewrite Hz. cbv zeta.
    rewrite Hi. replace (nocv_issues empty_frame) with (@nil issue) by reflexivity.
    destruct (iso_column db infer _ "start_date" _) as [e |] eqn:E1.
    { apply iso_column_error in E1. subst e. exists "ValueError". split; [reflexivity | left; reflexivity]. }
    destruct (iso_column db infer _ "end_date" _) as [e |] eqn:E2.
    { apply iso_column_error in E2. subst e. exists "ValueError". split; [reflexivity | left; reflexivity]. }
    exists "AttributeError". split; [reflexivity | right; left; reflexivity].
  - intros db infer inp zf st Hz Hm Hp.
    assert (Hd : p_deploys st = empty_frame).
    { rewrite (prepare_deploys db infer inp zf st Hz Hp). apply load_missing. exact Hm. }
    unfold build_deployments. rewrite Hd. split; reflexivity.
  - intros infer. vm_compute. reflexivity.
Qed.

Lemma missing_members_witness :
  exists kind, process_zip Time.example_db no_infer (mk_input [("projects.csv", projects_frame);
                                                               ("deployments.csv", deploys_of [deploy_ok])]) [] =
               (inl (PythonError kind), []) /\ In kind ["ValueError"; "AttributeError"].
Proof.
  apply (proj1 missing_members Time.example_db no_infer
           (mk_input [("projects.csv", projects_frame); ("deployments.csv", deploys_of [deploy_ok])])
           [("projects.csv", projects_frame); ("deployments.csv", deploys_of [deploy_ok])] [] eq_refl).
  intros m Hm. simpl in Hm. destruct Hm as [<- | [<- | []]]; vm_compute; reflexivity.
Defined.

(** C9 does not hold as stated: an archive with no member named like
    "deploy" is processed to the end. *)
Lemma run_without_deploy_member :
  fst (process_zip Time.example_db no_infer archive_without_deploy []) =
  inr "/data/out/WI2CamtrapDP_wi_export_2000_20240201_120000".
Proof. vm_compute. reflexivity. Qed.

End MemberClaims.

(** ** Timestamps: the shape of [to_iso_utc]'s output *)

Module TimeFacts.
Import Py Time.
Open Scope Z_scope.

Lemma parse_dmy_hm_bounds (s : string) (t : Z) :
  parse_dmy_hm s = Some t -> in_bounds t = true.
Proof.
  unfold parse_dmy_hm. intros H.
  repeat (cbv zeta in H; match type of H with
  | context [obind ?o _] =>
      let x := fresh "x" in
      destruct o as [x |]; cbn [obind] in H; [try destruct x | discriminate]
  | context [match ?x with [] => _ | _ :: _ => _ end] => destruct x; try discriminate
  | context [if ?b then _ else _] => destruct b eqn:?; try discriminate
  end).
  all: injection H as <-.
  all: assumption.
Qed.

Lemma parse_datetime_bounds (infer : string -> option parsed) (s : string) (p : parsed) :
  parse_datetime infer s = Some p ->
  match p with Naive l => in_bounds l = true | Aware u => in_bounds u = true end.
Proof.
  unfold parse_datetime.
  destruct (parse_dmy_hm s) as [t|] eqn:E.
  - intros H. injection H as <-. exact (parse_dmy_hm_bounds s t E).
  - destruct (infer s) as [q|]; cbn [obind]; [| discriminate].
    unfold bounded. destruct q as [l|u]; destruct (in_bounds _) eqn:B; intros H;
      try discriminate; injection H as <-; exact B.
Qed.

Lemma tz_localize_bounds (db : tzdb) (tz : option string) (l u : Z) :
  tz_localize db tz l = LInst u -> in_bounds u = true.
Proof.
  unfold tz_localize.
  destruct tz as [name|]; [| discriminate].
  destruct (db name) as [z|]; [| discriminate].
  destruct (z l); cbn beta iota;
    try (destruct (in_bounds _) eqn:B; intros H; [injection H as <-; exact B | discriminate]).
  discriminate.
Qed.

(** Every timestamp handed to [strftime] is within pandas' bounds. *)
Lemma to_iso_utc_some (db : tzdb) (infer : string -> option parsed)
    (v tz : option string) (r : string) :
  to_iso_utc db infer v tz = Some r -> exists u, in_bounds u = true /\ r = strftime_utc u.
Proof.
  unfold to_iso_utc.
  destruct v as [v|]; [| discriminate].
  destruct (_ || _); [discriminate |].
  destruct (parse_datetime infer (strip v)) as [p|] eqn:Hp; [| discriminate].
  apply parse_datetime_bounds in Hp.
  destruct p as [l|u].
  - destruct (tz_localize db tz l) as [u| |] eqn:Ht; intros H; try discriminate.
    + injection H as <-. exists u. split; [exact (tz_localize_bounds db tz l u Ht) | reflexivity].
    + injection H as <-. exists l. split; [exact Hp | reflexivity].
  - intros H. injection H as <-. exists u. split; [exact Hp | reflexivity].
Qed.

Lemma doy_bounds (doe : Z) :
  0 <= doe <= 146096 ->
  let yoe := (doe - doe / 1460 + doe / 36524 - doe / 146096) / 365 in
  0 <= yoe <= 399 /\ 0 <= doe - (365 * yoe + yoe / 4 - yoe / 100) <= 365.
Proof.
  intros H. cbv zeta.
  assert (doe = 146096 \/ doe < 146096) as [->|Hc] by lia; [vm_compute; intuition discriminate |].
  rewrite (Z.div_small doe 146096) by lia.
  assert (Hb : 0 <= doe / 36524 <= 3) by (Z.div_mod_to_equations; lia).
  set (b := doe / 36524) in *.
  assert (Eb : 36524 * b <= doe < 36524 * b + 36524) by (subst b; Z.div_mod_to_equations; lia).
  set (a := doe / 1460) in *.
  assert (Ea : 1460 * a <= doe < 1460 * a + 1460) by (subst a; Z.div_mod_to_equations; lia).
  clearbody a b.
  set (yoe := (doe - a + b - 0) / 365).
  assert (Ey : 365 * yoe <= doe - a + b < 365 * yoe + 365) by (subst yoe; Z.div_mod_to_equations; lia).
  clearbody yoe.
  set (p := yoe / 4).
  assert (Ep : 4 * p <= yoe < 4 * p + 4) by (subst p; Z.div_mod_to_equations; lia).
  set (q := yoe / 100).
  assert (Eq : 100 * q <= yoe < 100 * q + 100) by (subst q; Z.div_mod_to_equations; lia).
  clearbody p q.
  lia.
Qed.

(** Over pandas' range of days the civil date has a four-digit year and a
    month and day of at most two digits. *)
Lemma civil_bounds (z : Z) :
  -106752 <= z <= 106751 ->
  let '(y, m, d) := civil_from_days z in 1600 <= y <= 2400 /\ 0 <= m < 100 /\ 0 <= d < 100.
Proof.
  intros Hz. unfold civil_from_days. cbv zeta.
  set (era := (z + 719468) / 146097).
  assert (Hera : 4 <= era <= 5) by (subst era; Z.div_mod_to_equations; lia).
  set (doe := z + 719468 - era * 146097).
  assert (Hdoe : 0 <= doe <= 146096) by (subst doe era; Z.div_mod_to_equations; lia).
  pose proof (doy_bounds doe Hdoe) as Hd. cbv zeta in Hd.
  set (yoe := (doe - doe / 1460 + doe / 36524 - doe / 146096) / 365) in *.
  set (doy := doe - (365 * yoe + yoe / 4 - yoe / 100)) in *.
  clearbody era doe yoe doy.
  set (mp := (5 * doy + 2) / 153).
  assert (Emp : 153 * mp <= 5 * doy + 2 < 153 * mp + 153) by (subst mp; Z.div_mod_to_equations; lia).
  clearbody mp.
  set (k := (153 * mp + 2) / 5).
  assert (Ek : 5 * k <= 153 * mp + 2 < 5 * k + 5) by (subst k; Z.div_mod_to_equations; lia).
  clearbody k.
  destruct (mp <? 10) eqn:E1; rewrite ?Z.ltb_lt, ?Z.ltb_ge in E1;
    destruct (_ <=? 2) eqn:E2; rewrite ?Z.leb_le, ?Z.leb_gt in E2; lia.
Qed.

Lemma matches_app (t1 t2 s1 s2 : list ascii) :
  matches t1 s1 = true -> matches t2 s2 = true -> matches (t1 ++ t2)%list (s1 ++ s2)%list = true.
Proof.
  revert s1. induction t1 as [| a t1 IH]; intros [| c s1]; cbn [matches app]; try discriminate.
  - intros _ H. exact H.
  - rewrite !andb_true_iff. intros [H1 H2] H3. split; [exact H1 | exact (IH s1 H2 H3)].
Qed.

(** Two-digit fields: [zpad 2 n] for [n < 100] is two decimal digits. *)
Lemma zpad2_digits (n : nat) :
  (n < 100)%nat -> matches ["d"; "d"]%char (list_ascii_of_string (zpad 2 n)) = true.
Proof.
  intros Hn.
  assert (Hall : forallb (fun k => matches ["d"; "d"]%char (list_ascii_of_string (zpad 2 k)))
                   (seq 0 100) = true) by (vm_compute; reflexivity).
  rewrite forallb_forall in Hall. apply Hall. apply in_seq. lia.
Qed.

(** Years of pandas' range print as four decimal digits. *)
Lemma year_digits (n : nat) :
  (1600 <= n <= 2400)%nat -> matches ["d"; "d"; "d"; "d"]%char (list_ascii_of_string (str_of_nat n)) = true.
Proof.
  intros Hn.
  assert (Hall : forallb (fun k => matches ["d"; "d"; "d"; "d"]%char (list_ascii_of_string (str_of_nat k)))
                   (seq 1600 801) = true) by (vm_compute; reflexivity).
  rewrite forallb_forall in Hall. apply Hall. apply in_seq. lia.
Qed.

Lemma iso_template_split :
  list_ascii_of_string iso_template =
  (["d"; "d"; "d"; "d"] ++ ["-"] ++ ["d"; "d"] ++ ["-"] ++ ["d"; "d"] ++ ["T"] ++
   ["d"; "d"] ++ [":"] ++ ["d"; "d"] ++ [":"] ++ ["d"; "d"] ++ ["Z"])%list%char.
Proof. reflexivity. Qed.

Lemma strftime_utc_iso (u : Z) : in_bounds u = true -> iso_form (strftime_utc u) = true.
Proof.
  unfold in_bounds, ts_min, ts_max. rewrite andb_true_iff, !Z.leb_le. intros Hu.
  unfold strftime_utc, iso_form.
  pose proof (civil_bounds (u / 86400) ltac:(Z.div_mod_to_equations; lia)) as Hc.
  destruct (civil_from_days (u / 86400)) as [[y m] d].
  destruct Hc as (Hy & Hm & Hd).
  rewrite !PyFacts.list_ascii_of_string_app, iso_template_split.
  pose proof (year_digits (Z.to_nat y) ltac:(lia)).
  pose proof (zpad2_digits (Z.to_nat m) ltac:(lia)).
  pose proof (zpad2_digits (Z.to_nat d) ltac:(lia)).
  pose proof (zpad2_digits (Z.to_nat (u mod 86400 / 3600)) ltac:(Z.div_mod_to_equations; lia)).
  pose proof (zpad2_digits (Z.to_nat (u mod 86400 mod 3600 / 60)) ltac:(Z.div_mod_to_equations; lia)).
  pose proof (zpad2_digits (Z.to_nat (u mod 86400 mod 60)) ltac:(Z.div_mod_to_equations; lia)).
  repeat (apply matches_app; [first [assumption | reflexivity] |]).
  reflexivity.
Qed.

(** C5: [to_iso_utc] returns either NA or a string of the form
    [YYYY-MM-DDTHH:MM:SSZ] (four-digit year, two-digit fields, UTC designator);
    a day-first ["15/01/2024 14:30"] with the hint [America/Bogota] (UTC-5)
    becomes ["2024-01-15T19:30:00Z"]. *)
Theorem to_iso_utc_shape :
  (forall (db : tzdb) (infer : string -> option parsed) (v tz : option string),
     to_iso_utc db infer v tz = None \/
     exists r, to_iso_utc db infer v tz = Some r /\ iso_form r = true) /\
  (forall infer : string -> option parsed,
     to_iso_utc example_db infer (Some "15/01/2024 14:30") (Some "America/Bogota") =
     Some "2024-01-15T19:30:00Z").
Proof.
  split.
  - intros db infer v tz.
    destruct (to_iso_utc db infer v tz) as [r|] eqn:E; [right | left; reflexivity].
    exists r. split; [reflexivity |].
    destruct (to_iso_utc_some db infer v tz r E) as (u & Hu & ->).
    exact (strftime_utc_iso u Hu).
  - intros infer. vm_compute. reflexivity.
Qed.

End TimeFacts.

(** ** Timestamps: localisation at DST transitions *)

Module DstClaims.
Import Py Time Examples.
Open Scope Z_scope.

(** C6 (amended): for a value that parses to a naive local time [l]: an
    ambiguous local time (DST fall back) gives NA ([ambiguous="NaT"]); a
    nonexistent one (DST gap) is shifted forward to the next whole hour and
    converted with the offset in force after the gap; a localisation that
    raises (no hint, an unknown zone, a result out of range) falls back to
    reading [l] as UTC. *)
Theorem dst_resolution (db : tzdb) (infer : string -> option parsed) (v : string) (l : Z)
    (Hs : (String.eqb (strip v) "" || String.eqb (lower (strip v)) "nan") = false)
    (Hp : parse_datetime infer (strip v) = Some (Naive l)) :
  (forall name z o1 o2, db name = Some z -> z l = LAmbiguous o1 o2 ->
     to_iso_utc db infer (Some v) (Some name) = None) /\
  (forall name z o, db name = Some z -> z l = LGap o ->
     in_bounds (l + (3600 - l mod 3600) - o) = true ->
     to_iso_utc db infer (Some v) (Some name) = Some (strftime_utc (l + (3600 - l mod 3600) - o))) /\
  (forall tz, tz_localize db tz l = LRaise ->
     to_iso_utc db infer (Some v) tz = Some (strftime_utc l)).
Proof.
  assert (Hrun : forall tz, to_iso_utc db infer (Some v) tz =
            match match tz_localize db tz l with LRaise => LInst l | r => r end with
            | LInst u => Some (strftime_utc u)
            | _ => None
            end).
  { intros tz. unfold to_iso_utc. cbv zeta. rewrite Hs, Hp. reflexivity. }
  split; [| split].
  - intros name z o1 o2 Hdb Hz. rewrite Hrun.
    unfold tz_localize. rewrite Hdb, Hz. reflexivity.
  - intros name z o Hdb Hz Hb. rewrite Hrun.
    unfold tz_localize. rewrite Hdb, Hz. cbv beta iota. rewrite Hb. reflexivity.
  - intros tz Ht. rewrite Hrun, Ht. reflexivity.
Qed.

(** Witness: ["12/03/2023 02:30"] in [America/New_York] falls in the
    spring gap (02:00 to 03:00 EST); it is moved to 03:00 EDT, that is
    07:00 UTC. *)
Lemma dst_resolution_witness :
  parse_datetime no_infer (strip "12/03/2023 02:30") =
    Some (Naive (days_from_civil 2023 3 12 * 86400 + 9000)) /\
  example_db "America/New_York" = Some new_york_2023 /\
  new_york_2023 (days_from_civil 2023 3 12 * 86400 + 9000) = LGap (-14400) /\
  to_iso_utc example_db no_infer (Some "12/03/2023 02:30") (Some "America/New_York") =
    Some (strftime_utc (days_from_civil 2023 3 12 * 86400 + 9000 +
            (3600 - (days_from_civil 2023 3 12 * 86400 + 9000) mod 3600) - (-14400))) /\
  strftime_utc (days_from_civil 2023 3 12 * 86400 + 9000 +
            (3600 - (days_from_civil 2023 3 12 * 86400 + 9000) mod 3600) - (-14400)) =
    "2023-03-12T07:00:00Z".
Proof.
  assert (Hp : parse_datetime no_infer (strip "12/03/2023 02:30") =
                 Some (Naive (days_from_civil 2023 3 12 * 86400 + 9000))) by (vm_compute; reflexivity).
  assert (Hdb : example_db "America/New_York" = Some new_york_2023) by reflexivity.
  assert (Hz : new_york_2023 (days_from_civil 2023 3 12 * 86400 + 9000) = LGap (-14400))
    by (vm_compute; reflexivity).
  split; [exact Hp |]. split; [exact Hdb |]. split; [exact Hz |].
  split; [| vm_compute; reflexivity].
  exact (proj1 (proj2 (dst_resolution example_db no_infer "12/03/2023 02:30"
                         (days_from_civil 2023 3 12 * 86400 + 9000) ltac:(vm_compute; reflexivity) Hp))
           "America/New_York" new_york_2023 (-14400) Hdb Hz ltac:(vm_compute; reflexivity)).
Defined.

(** Counterexample: 2023-11-05 01:30 occurs twice in New York (EDT, then EST);
    the value is not shifted to an instant but comes back as NA. *)
Lemma ambiguous_time_na :
  new_york_2023 (days_from_civil 2023 11 5 * 86400 + 5400) = LAmbiguous (-14400) (-18000) /\
  to_iso_utc example_db no_infer (Some "05/11/2023 01:30") (Some "America/New_York") = None.
Proof. split; vm_compute; reflexivity. Qed.

End DstClaims.

(** ** Slugs *)

Module SlugFacts.
Import Py Slug.

Lemma good_char (c : ascii) :
  (alnum c || edge c) = true ->
  (Ascii.eqb c " " || Ascii.eqb c "_") = false /\ lower_char c = c /\
  allowed c = true /\ (N_of_ascii c <? 128)%N = true.
Proof.
  destruct c as [[] [] [] [] [] [] [] []]; vm_compute;
    intros H; first [discriminate H | repeat split].
Qed.

Lemma kept_char (c : ascii) :
  let c' := lower_char (if Ascii.eqb c " " || Ascii.eqb c "_" then dash else c) in
  allowed c' = true -> (alnum c' || edge c') = true.
Proof.
  destruct c as [[] [] [] [] [] [] [] []]; vm_compute; intros H; first [discriminate H | reflexivity].
Qed.

Lemma strip_lead_Forall (P : ascii -> Prop) (l : list ascii) :
  Forall P l -> Forall P (strip_lead l).
Proof.
  induction l as [| c l IH]; cbn [strip_lead]; [auto |].
  intros H. destruct (edge c); [apply IH; inversion H; assumption | exact H].
Qed.

Lemma strip_lead_head (l : list ascii) :
  match strip_lead l with c :: _ => edge c = false | [] => True end.
Proof.
  induction l as [| c l IH]; cbn [strip_lead]; [exact I |].
  destruct (edge c) eqn:E; [exact IH | exact E].
Qed.

Lemma strip_lead_id (l : list ascii) :
  match l with c :: _ => edge c = false | [] => True end -> strip_lead l = l.
Proof. destruct l as [| c l]; cbn [strip_lead]; [reflexivity | intros ->; reflexivity]. Qed.

Lemma strip_lead_idem (l : list ascii) : strip_lead (strip_lead l) = strip_lead l.
Proof. apply strip_lead_id, strip_lead_head. Qed.

Lemma strip_lead_snoc (l : list ascii) (c : ascii) :
  edge c = false -> strip_lead (l ++ [c]) = (strip_lead l ++ [c])%list.
Proof.
  intros Hc. induction l as [| d l IH]; cbn [strip_lead app].
  - rewrite Hc. reflexivity.
  - destruct (edge d); [exact IH | reflexivity].
Qed.

Lemma strip_trail_head (l : list ascii) :
  match l with c :: _ => edge c = false | [] => True end ->
  match strip_trail l with c :: _ => edge c = false | [] => True end.
Proof.
  destruct l as [| c l]; [intros _; exact I |]. intros Hc.
  unfold strip_trail. cbn [rev]. rewrite strip_lead_snoc by exact Hc.
  rewrite rev_app_distr. cbn [rev app]. exact Hc.
Qed.

Lemma strip_trail_idem (l : list ascii) : strip_trail (strip_trail l) = strip_trail l.
Proof. unfold strip_trail. rewrite rev_involutive, strip_lead_idem. reflexivity. Qed.

Lemma clean_good (l : list ascii) : Forall (fun c => (alnum c || edge c) = true) (clean l).
Proof.
  unfold clean, strip_trail.
  apply Forall_rev, strip_lead_Forall, Forall_rev, strip_lead_Forall.
  apply Forall_forall. intros c Hc.
  apply filter_In in Hc as [Hc Ha].
  unfold replace_sp_us in Hc. rewrite map_map in Hc.
  apply in_map_iff in Hc as (x & <- & _).
  exact (kept_char x Ha).
Qed.

Lemma clean_head (l : list ascii) :
  match clean l with c :: _ => edge c = false | [] => True end.
Proof. unfold clean. apply strip_trail_head, strip_lead_head. Qed.

(** The cleaning steps leave a list of slug characters unchanged. *)
Lemma steps_good (t : list ascii) :
  Forall (fun c => (alnum c || edge c) = true) t ->
  filter allowed (map lower_char (replace_sp_us t)) = t.
Proof.
  induction t as [| c t IH]; intros H; [reflexivity |].
  inversion H as [| ? ? Hc Ht]; subst.
  destruct (good_char c Hc) as (H1 & H2 & H3 & _).
  unfold replace_sp_us in *. cbn [map filter]. rewrite H1, H2, H3, (IH Ht). reflexivity.
Qed.

Lemma clean_idem (l : list ascii) : clean (clean l) = clean l.
Proof.
  pose proof (clean_good l) as Hg. pose proof (clean_head l) as Hh.
  unfold clean at 1. rewrite (steps_good _ Hg), (strip_lead_id _ Hh).
  unfold clean. apply strip_trail_idem.
Qed.

Lemma code_points_ascii (t : list ascii) :
  Forall (fun c => (alnum c || edge c) = true) t ->
  Forall (fun n => (n < 128)%N) (code_points (string_of_list_ascii t)) /\
  ascii_ignore (code_points (string_of_list_ascii t)) = t.
Proof.
  unfold code_points. rewrite list_ascii_of_string_of_list_ascii.
  induction t as [| c t IH]; intros H; [split; [constructor | reflexivity] |].
  inversion H as [| ? ? Hc Ht]; subst.
  destruct (IH Ht) as [IH1 IH2].
  destruct (good_char c Hc) as (_ & _ & _ & H4).
  split.
  - constructor; [apply N.ltb_lt; exact H4 | exact IH1].
  - unfold ascii_ignore in *. cbn [map filter]. rewrite H4. cbn [map].
    rewrite ascii_N_embedding, IH2. reflexivity.
Qed.

(** C8: for a normalisation that leaves ASCII text unchanged (as NFKD does),
    slugifying is idempotent; the slug matches [^[a-z0-9][a-z0-9\-./]*$] or
    is the fallback ["wi-project"], which is what an empty cleaned text gives. *)
Theorem slugify_idempotent (nfkd : list N -> list N)
    (Hnfkd : forall l, Forall (fun n => (n < 128)%N) l -> nfkd l = l) (s : list N) :
  slugify_name nfkd (code_points (slugify_name nfkd s)) = slugify_name nfkd s /\
  (slug_regex (slugify_name nfkd s) = true \/ slugify_name nfkd s = "wi-project") /\
  (clean (ascii_ignore (nfkd s)) = [] -> slugify_name nfkd s = "wi-project").
Proof.
  assert (Hs : slugify_name nfkd s =
    match clean (ascii_ignore (nfkd s)) with [] => "wi-project" | t => string_of_list_ascii t end)
    by reflexivity.
  rewrite Hs.
  pose proof (clean_good (ascii_ignore (nfkd s))) as Hg.
  pose proof (clean_head (ascii_ignore (nfkd s))) as Hh.
  pose proof (clean_idem (ascii_ignore (nfkd s))) as Hi.
  destruct (clean (ascii_ignore (nfkd s))) as [| c r] eqn:E.
  - split; [| split; [right; reflexivity | intros _; reflexivity]].
    destruct (code_points_ascii (list_ascii_of_string "wi-project") ltac:(repeat constructor))
      as [H1 _].
    rewrite string_of_list_ascii_of_string in H1.
    unfold slugify_name. rewrite (Hnfkd _ H1). vm_compute. reflexivity.
  - split; [| split; [left | discriminate]].
    + destruct (code_points_ascii (c :: r) Hg) as [H1 H2].
      unfold slugify_name. rewrite (Hnfkd _ H1), H2, Hi. reflexivity.
    + unfold slug_regex. rewrite list_ascii_of_string_of_list_ascii.
      inversion Hg as [| ? ? Hc Hr]; subst.
      rewrite Hh in Hc. rewrite orb_false_r in Hc. rewrite Hc. cbn [andb].
      apply forallb_forall. intros x Hx. rewrite Forall_forall in Hr. exact (Hr x Hx).
Qed.

(** Witness: the docstring's ["Mi Proyecto_2024"] with the identity as the
    normalisation of its ASCII text. *)
Lemma slugify_idempotent_witness :
  slugify_name (fun l => l) (code_points "Mi Proyecto_2024") = "mi-proyecto-2024" /\
  (slugify_name (fun l => l) (code_points (slugify_name (fun l => l) (code_points "Mi Proyecto_2024"))) =
     slugify_name (fun l => l) (code_points "Mi Proyecto_2024") /\
   (slug_regex (slugify_name (fun l => l) (code_points "Mi Proyecto_2024")) = true \/
    slugify_name (fun l => l) (code_points "Mi Proyecto_2024") = "wi-project") /\
   (clean (ascii_ignore (code_points "Mi Proyecto_2024")) = [] ->
    slugify_name (fun l => l) (code_points "Mi Proyecto_2024") = "wi-project")).
Proof.
  split; [vm_compute; reflexivity |].
  apply (slugify_idempotent (fun l => l)). intros l _. reflexivity.
Defined.

End SlugFacts.

(** ** Python string facts *)
Module StrFacts.
Import Py.

Lemma lower_char_idem (c : ascii) : lower_char (lower_char c) = lower_char c.
Proof. destruct c as [[] [] [] [] [] [] [] []]; vm_compute; reflexivity. Qed.

Lemma lower_idem (s : string) : lower (lower s) = lower s.
Proof. induction s as [| c s IH]; cbn [lower]; [reflexivity | now rewrite lower_char_idem, IH]. Qed.

Lemma lower_app (a b : string) : lower (a ++ b) = lower a ++ lower b.
Proof. induction a as [| c a IH]; cbn [lower append]; [reflexivity | now rewrite IH]. Qed.

Lemma prefix_app (p y : string) : String.prefix p (p ++ y) = true.
Proof.
  induction p as [| c p IH]; [destruct y; reflexivity |]. cbn.
  destruct (ascii_dec c c) as [_ | n]; [exact IH | contradiction].
Qed.

Lemma contains_eq (p t : string) :
  contains p t = if String.prefix p t then true
                 else match t with EmptyString => false | String _ r => contains p r end.
Proof. destruct t; reflexivity. Qed.

Lemma contains_mid (p x y : string) : contains p (x ++ p ++ y) = true.
Proof.
  induction x as [| c x IH].
  - cbn [append]. rewrite contains_eq, prefix_app. reflexivity.
  - cbn [append contains]. destruct (String.prefix p _); [reflexivity | exact IH].
Qed.

Lemma space_not_digit (c : ascii) : is_space c = true -> Time.is_digit c = false.
Proof. destruct c as [[] [] [] [] [] [] [] []]; vm_compute; congruence. Qed.

(** [str.lstrip()] removes a run of whitespace. *)
Lemma lstrip_split (s : string) :
  exists p, s = p ++ lstrip s /\ Forall (fun c => is_space c = true) (list_ascii_of_string p) /\
            match lstrip s with String c _ => is_space c = false | EmptyString => True end.
Proof.
  induction s as [| c s IH]; cbn [lstrip].
  - exists EmptyString. repeat split. constructor.
  - destruct (is_space c) eqn:E.
    + destruct IH as (p & Hp & Hf & Hh). exists (String c p).
      split; [cbn [append]; now rewrite <- Hp |]. split; [constructor; assumption | exact Hh].
    + exists EmptyString. repeat split; [constructor | exact E].
Qed.

Lemma lstrip_id (s : string) :
  match s with String c _ => is_space c = false | EmptyString => True end -> lstrip s = s.
Proof. destruct s as [| c s]; cbn [lstrip]; [reflexivity | intros ->; reflexivity]. Qed.

Lemma rev_string_list (s : string) :
  list_ascii_of_string (rev_string s) = rev (list_ascii_of_string s).
Proof. unfold rev_string. apply list_ascii_of_string_of_list_ascii. Qed.

Lemma rev_string_inv (s : string) : rev_string (rev_string s) = s.
Proof.
  unfold rev_string at 1. rewrite rev_string_list, rev_involutive.
  apply string_of_list_ascii_of_string.
Qed.

Lemma string_list_inj (a b : string) : list_ascii_of_string a = list_ascii_of_string b -> a = b.
Proof.
  intros H. rewrite <- (string_of_list_ascii_of_string a), <- (string_of_list_ascii_of_string b).
  now rewrite H.
Qed.

Lemma rev_string_app (a b : string) : rev_string (a ++ b) = rev_string b ++ rev_string a.
Proof.
  apply string_list_inj.
  rewrite rev_string_list, !PyFacts.list_ascii_of_string_app, rev_app_distr, !rev_string_list.
  reflexivity.
Qed.

(** [str.strip()] removes whitespace runs at both ends and leaves a string
    that starts and ends with a non-space. *)
Lemma strip_split (s : string) :
  exists p q,
    list_ascii_of_string s =
      (list_ascii_of_string p ++ list_ascii_of_string (strip s) ++ list_ascii_of_string q)%list /\
    Forall (fun c => is_space c = true) (list_ascii_of_string p) /\
    Forall (fun c => is_space c = true) (list_ascii_of_string q) /\
    lstrip (strip s) = strip s /\ lstrip (rev_string (strip s)) = rev_string (strip s).
Proof.
  destruct (lstrip_split s) as (p & Hp & Hpf & Hph).
  destruct (lstrip_split (rev_string (lstrip s))) as (q0 & Hq & Hqf & Hqh).
  set (u := lstrip s) in *. set (w := lstrip (rev_string u)) in *.
  assert (Hu : u = rev_string w ++ rev_string q0)
    by (rewrite <- (rev_string_inv u), Hq; apply rev_string_app).
  assert (Hs : strip s = rev_string w) by reflexivity.
  exists p, (rev_string q0). rewrite Hs.
  split; [| split; [exact Hpf | split; [| split]]].
  - rewrite Hp at 1. rewrite !PyFacts.list_ascii_of_string_app, Hu, PyFacts.list_ascii_of_string_app.
    reflexivity.
  - rewrite rev_string_list. apply Forall_rev. exact Hqf.
  - apply lstrip_id. rewrite Hu in Hph.
    destruct (rev_string w) as [| c r]; [exact I | exact Hph].
  - rewrite rev_string_inv. apply lstrip_id. exact Hqh.
Qed.

Lemma strip_idem (s : string) : strip (strip s) = strip s.
Proof.
  destruct (strip_split s) as (p & q & _ & _ & _ & H1 & H2).
  unfold strip at 1. rewrite H1, H2. apply rev_string_inv.
Qed.

End StrFacts.

(** ** Field mappings *)
Module MappingFacts.
Import Py Mappings.

Lemma dot_lower (c : ascii) :
  (if ascii_dec "." (lower_char c) then true else false) = (if ascii_dec "." c then true else false).
Proof. destruct c as [[] [] [] [] [] [] [] []]; vm_compute; reflexivity. Qed.

Lemma contains_dot_lower (s : string) : contains "." (lower s) = contains "." s.
Proof.
  assert (P : forall c r, String.prefix "." (String c r) = if ascii_dec "." c then true else false)
    by (intros c r; cbn -[ascii_dec]; destruct (ascii_dec "." c); [destruct r |]; reflexivity).
  induction s as [| c s IH]; [reflexivity |].
  cbn [lower]. rewrite (StrFacts.contains_eq _ (String (lower_char c) _)), (StrFacts.contains_eq _ (String c s)).
  rewrite !P, dot_lower, IH. reflexivity.
Qed.

Lemma after_last_dot_app (a b acc : string) :
  Frame.after_last_dot (a ++ String "." b) acc = Frame.after_last_dot b "".
Proof.
  revert acc. induction a as [| c a IH]; intros acc; cbn [append Frame.after_last_dot]; [reflexivity |].
  destruct (Ascii.eqb c "."); apply IH.
Qed.

(** [ext_to_mediatype] reads the extension case-insensitively, only the text
    after the last dot counts, and the result is one of eight media types. *)
Theorem ext_to_mediatype_extension (name a b : string) :
  Frame.ext_to_mediatype (lower name) = Frame.ext_to_mediatype name /\
  Frame.ext_to_mediatype (a ++ "." ++ b) = Frame.ext_to_mediatype ("." ++ b) /\
  In (Frame.ext_to_mediatype name)
     ["image/jpeg"; "image/png"; "image/gif"; "image/bmp"; "image/tiff"; "video/mp4";
      "video/x-msvideo"; "application/octet-stream"].
Proof.
  split; [| split].
  - unfold Frame.ext_to_mediatype. rewrite contains_dot_lower, StrFacts.lower_idem. reflexivity.
  - unfold Frame.ext_to_mediatype.
    rewrite (StrFacts.contains_mid "." a b).
    replace (contains "." ("." ++ b)) with true by (destruct b; reflexivity).
    rewrite StrFacts.lower_app. cbn [append lower].
    replace (lower_char ".") with "."%char by reflexivity.
    rewrite after_last_dot_app.
    rewrite <- (after_last_dot_app EmptyString (lower b) "").
    reflexivity.
  - unfold Frame.ext_to_mediatype.
    repeat match goal with |- context [if ?c then _ else _] => destruct c end; cbn; tauto.
Qed.

(** [map_capture_method_from_text] matches substrings: any text containing
    "manual", "bait" or "lure" in any case (for instance "Camera failure")
    maps to "manual", whatever else it says; the result is one of three
    values. *)
Theorem capture_method_substring (a w b : string) :
  In (lower w) ["manual"; "bait"; "lure"] ->
  map_capture_method_from_text (a ++ w ++ b) = "manual" /\
  In (map_capture_method_from_text (a ++ w ++ b)) ["manual"; "timeLapse"; "activityDetection"].
Proof.
  intros Hw.
  assert (H : map_capture_method_from_text (a ++ w ++ b) = "manual").
  { unfold map_capture_method_from_text. rewrite !StrFacts.lower_app.
    destruct Hw as [Hw | [Hw | [Hw | []]]]; rewrite Hw, StrFacts.contains_mid;
      rewrite ?orb_true_r; reflexivity. }
  split; [exact H | rewrite H; left; reflexivity].
Qed.

Lemma capture_method_substring_witness :
  map_capture_method_from_text ("Camera fai" ++ "lure" ++ "") = "manual" /\
  In (map_capture_method_from_text ("Camera fai" ++ "lure" ++ "")) ["manual"; "timeLapse"; "activityDetection"].
Proof. apply capture_method_substring. cbn. right; right; left; reflexivity. Defined.

(** [_transform_sampling_design] is idempotent. *)
Theorem sampling_design_idempotent (v : string) :
  transform_sampling_design (transform_sampling_design v) = transform_sampling_design v.
Proof.
  unfold transform_sampling_design at 2 3.
  destruct (String.eqb (strip v) "Systematic") eqn:E1; [vm_compute; reflexivity |].
  destruct (String.eqb (strip v) "Randomized") eqn:E2; [vm_compute; reflexivity |].
  destruct (String.eqb (strip v) "Convenience") eqn:E3; [vm_compute; reflexivity |].
  destruct (String.eqb (strip v) "Targeted") eqn:E4; [vm_compute; reflexivity |].
  unfold transform_sampling_design. rewrite StrFacts.strip_idem.
  repeat match goal with |- context [if ?c then _ else _] => destruct c eqn:? end;
    try reflexivity; congruence.
Qed.

Lemma assoc_in (k r : string) (l : list (string * string)) :
  assoc k l = Some r -> In r (map snd l).
Proof.
  induction l as [| [k' v] l IH]; cbn [assoc map]; [discriminate |].
  destruct (String.eqb k k'); [intros H; injection H as <-; left; reflexivity | intros H; right; auto].
Qed.

(** The licence name [normalize_license] gives is never empty, and
    normalising it again changes nothing unless it reads "nan" or "none" (a
    padded " nan " is stripped to "nan" and then kept). *)
Theorem normalize_license_stable (x : option string) :
  normalize_license x <> "" /\
  (~ In (lower (normalize_license x)) ["nan"; "none"] ->
   normalize_license (Some (normalize_license x)) = normalize_license x).
Proof.
  destruct x as [l |]; [| split; [discriminate | intros _; reflexivity]].
  assert (Hc : normalize_license (Some l) = "CC-BY-4.0" \/
               In (normalize_license (Some l))
                  ["CC-BY-4.0"; "CC-BY-NC-4.0"; "CC-BY-SA-4.0"; "CC-BY-NC-SA-4.0"; "CC0-1.0"; "CC0-1.0"] \/
               (normalize_license (Some l) = strip l /\ String.eqb (strip l) "" = false /\
                assoc (strip l) license_mapping = None)).
  { unfold normalize_license.
    destruct (String.eqb l "" || String.eqb (strip l) "" || existsb (String.eqb (lower l)) ["nan"; "none"])
      eqn:C; [left; reflexivity |].
    rewrite !orb_false_iff in C. destruct C as [[_ C2] _].
    destruct (assoc (strip l) license_mapping) as [r |] eqn:A.
    - right; left. exact (assoc_in _ _ _ A).
    - right; right. auto. }
  destruct Hc as [H | [H | (H & C2 & A)]].
  - rewrite H. split; [discriminate | intros _; reflexivity].
  - destruct H as [H | [H | [H | [H | [H | [H | []]]]]]]; rewrite <- H;
      split; try discriminate; intros _; reflexivity.
  - rewrite H. split; [intros E; rewrite E in C2; discriminate |].
    intros Hn. unfold normalize_license.
    rewrite StrFacts.strip_idem, C2.
    replace (existsb (String.eqb (lower (strip l))) ["nan"; "none"]) with false.
    + cbn [orb]. rewrite A. reflexivity.
    + symmetry. apply not_true_iff_false. intros E. apply Hn.
      apply existsb_exists in E as (y & Hy & Hq). apply String.eqb_eq in Hq. now subst.
Qed.

Lemma normalize_license_stable_witness :
  normalize_license (Some " CC-BY ") <> "" /\
  normalize_license (Some (normalize_license (Some " CC-BY "))) = normalize_license (Some " CC-BY ").
Proof.
  pose proof (normalize_license_stable (Some " CC-BY ")) as [H1 H2].
  split; [exact H1 | apply H2; vm_compute; intuition discriminate].
Defined.

End MappingFacts.

(** ** Field mappings, continued *)
Module MappingFacts2.
Import Py Mappings.

Lemma feature_values_in_vocabulary (k r : string) :
  (assoc k feature_mappings = Some r \/ assoc k camel_case_map = Some r) -> In r feature_vocabulary.
Proof.
  assert (Hall : forallb (fun r => existsb (String.eqb r) feature_vocabulary)
                   (map snd feature_mappings ++ map snd camel_case_map) = true)
    by (vm_compute; reflexivity).
  intros Hk. rewrite forallb_forall in Hall.
  assert (Hin : In r (map snd feature_mappings ++ map snd camel_case_map)).
  { apply in_or_app. destruct Hk as [Hk | Hk]; [left | right]; exact (MappingFacts.assoc_in _ _ _ Hk). }
  specialize (Hall r Hin). apply existsb_exists in Hall as (y & Hy & Hq).
  apply String.eqb_eq in Hq. now subst.
Qed.

(** [_map_feature_type] only returns values of the Camtrap-DP
    [featureType] vocabulary, and it returns each of those values unchanged,
    so applying it twice gives the same result as applying it once. *)
Theorem feature_type_vocabulary (val : option string) :
  match map_feature_type val with
  | None => True
  | Some r => In r feature_vocabulary /\ map_feature_type (Some r) = Some r
  end /\
  (forall v, In v feature_vocabulary -> map_feature_type (Some v) = Some v).
Proof.
  assert (Hfix : forall v, In v feature_vocabulary -> map_feature_type (Some v) = Some v).
  { assert (Hall : forallb (fun v => match map_feature_type (Some v) with
                                     | Some r => String.eqb r v | None => false end)
                     feature_vocabulary = true) by (vm_compute; reflexivity).
    intros v Hv. rewrite forallb_forall in Hall. specialize (Hall v Hv).
    destruct (map_feature_type (Some v)) as [r |]; [| discriminate].
    apply String.eqb_eq in Hall. now subst. }
  split; [| exact Hfix].
  destruct (map_feature_type val) as [r |] eqn:E; [| exact I].
  assert (Hr : In r feature_vocabulary).
  { destruct val as [v |]; [| discriminate]. unfold map_feature_type in E.
    destruct (_ || _); [discriminate |].
    destruct (assoc (lower (strip v)) feature_mappings) as [r' |] eqn:A.
    - injection E as <-. apply (feature_values_in_vocabulary (lower (strip v))). left; exact A.
    - destruct (existsb _ valid_values); [| discriminate].
      apply (feature_values_in_vocabulary (compact (lower (strip v)))). right; exact E. }
  split; [exact Hr | exact (Hfix r Hr)].
Qed.



(** *** [str.split()] *)






Lemma forallb_ascii_Forall (p : ascii -> bool) (l : list ascii) :
  forallb (fun c => negb (p c) && Nat.ltb (nat_of_ascii c) 128) l = true ->
  Forall (fun c => p c = false) l.
Proof.
  intros H. apply Forall_forall. intros c Hc. rewrite forallb_forall in H.
  specialize (H c Hc). apply andb_true_iff in H as [H _]. now apply negb_true_iff in H.
Qed.



(** *** Leftmost digit run *)

Lemma first_digits_lead (p x : list ascii) :
  Forall (fun c => Time.is_digit c = false) p -> first_digits (p ++ x) = first_digits x.
Proof.
  induction p as [| c p IH]; intros Hp; [reflexivity |].
  inversion Hp; subst. cbn [app first_digits]. rewrite H1. auto.
Qed.

Lemma first_digits_none (p : list ascii) :
  Forall (fun c => Time.is_digit c = false) p -> first_digits p = None.
Proof. intros Hp. rewrite <- (app_nil_r p), first_digits_lead by exact Hp. reflexivity. Qed.

Lemma digit_run_app (x q : list ascii) :
  match q with c :: _ => Time.is_digit c = false | [] => True end -> digit_run (x ++ q) = digit_run x \/ Forall (fun c => Time.is_digit c = true) x.
Proof.
  induction x as [| c x IH]; intros Hq.
  - right. constructor.
  - cbn [app digit_run]. destruct (Time.is_digit c) eqn:E.
    + destruct (IH Hq) as [H | H]; [left; now rewrite H | right; constructor; assumption].
    + left; reflexivity.
Qed.

Lemma digit_run_digits (d q : list ascii) :
  Forall (fun c => Time.is_digit c = true) d -> match q with c :: _ => Time.is_digit c = false | [] => True end -> digit_run (d ++ q) = d.
Proof.
  induction d as [| c d IH]; intros Hd Hq.
  - destruct q as [| c q]; [reflexivity | cbn in Hq |- *; now rewrite Hq].
  - inversion Hd; subst. cbn [app digit_run]. rewrite H1, IH by assumption. reflexivity.
Qed.

Lemma first_digits_trail (x q : list ascii) :
  Forall (fun c => Time.is_digit c = false) q -> first_digits (x ++ q) = first_digits x.
Proof.
  induction x as [| c x IH]; intros Hq.
  - apply first_digits_none. exact Hq.
  - cbn [app first_digits]. destruct (Time.is_digit c) eqn:E; [| apply IH; exact Hq].
    f_equal.
    assert (Hs : match q with c :: _ => Time.is_digit c = false | [] => True end) by (destruct Hq; [exact I | assumption]).
    destruct (digit_run_app (c :: x) q Hs) as [H | H]; [exact H |].
    pose proof (digit_run_digits (c :: x) [] H I) as E2. rewrite app_nil_r in E2.
    exact (eq_trans (digit_run_digits (c :: x) q H Hs) (eq_sym E2)).
Qed.

Lemma first_digits_strip (s : string) :
  first_digits (list_ascii_of_string (strip s)) = first_digits (list_ascii_of_string s).
Proof.
  destruct (StrFacts.strip_split s) as (p & q & Hs & Hp & Hq & _).
  assert (Hsd : forall l, Forall (fun c => is_space c = true) l ->
                          Forall (fun c => Time.is_digit c = false) l)
    by (intros l; apply Forall_impl; exact StrFacts.space_not_digit).
  rewrite Hs, first_digits_lead, first_digits_trail by auto. reflexivity.
Qed.

Lemma digit_char_digit (d : nat) : d < 10 -> Time.is_digit (digit_char d) = true.
Proof.
  intros Hd. unfold Time.is_digit, digit_char.
  rewrite nat_ascii_embedding by lia.
  apply andb_true_iff; split; apply Nat.leb_le; lia.
Qed.

Lemma dec_digits_nonempty (fuel n : nat) : dec_digits fuel n <> [].
Proof.
  destruct fuel as [| f]; cbn [dec_digits]; [discriminate |].
  destruct (Nat.ltb n 10); [discriminate |].
  intros H. apply app_eq_nil in H as [_ H]. discriminate.
Qed.

Lemma str_of_nat_digits (n : nat) :
  list_ascii_of_string (str_of_nat n) <> [] /\
  Forall (fun c => Time.is_digit c = true) (list_ascii_of_string (str_of_nat n)).
Proof.
  unfold str_of_nat. rewrite list_ascii_of_string_of_list_ascii. split.
  - intros H. apply map_eq_nil in H. exact (dec_digits_nonempty n n H).
  - destruct (PyFacts.dec_digits_spec n n (le_n n)) as [Hd _].
    apply Forall_map. revert Hd. apply Forall_impl. exact digit_char_digit.
Qed.

(** [_map_camera_height] with [sensor_height] "other" reads the height
    from [height_other]: the first run of digits is taken as centimetres,
    whatever text surrounds it; without any digit the height is missing. *)
Theorem camera_height_other (sh a b : string) (n : nat) :
  lower (strip sh) = "other" ->
  forallb (fun c => negb (Time.is_digit c) && Nat.ltb (nat_of_ascii c) 128) (list_ascii_of_string a) = true ->
  forallb (fun c => negb (Time.is_digit c) && Nat.ltb (nat_of_ascii c) 128)
          (firstn 1 (list_ascii_of_string b)) = true ->
  map_camera_height (Some sh) (Some (a ++ str_of_nat n ++ b)) = Some n /\
  (forall ho, forallb (fun c => negb (Time.is_digit c) && Nat.ltb (nat_of_ascii c) 128)
                      (list_ascii_of_string ho) = true ->
              map_camera_height (Some sh) (Some ho) = None).
Proof.
  intros Hsh Ha Hb. apply forallb_ascii_Forall in Ha.
  assert (Hb' : match list_ascii_of_string b with c :: _ => Time.is_digit c = false | [] => True end).
  { apply forallb_ascii_Forall in Hb.
    destruct (list_ascii_of_string b) as [| c r]; [exact I |]. inversion Hb; assumption. }
  clear Hb; rename Hb' into Hb.
  unfold map_camera_height. rewrite Hsh. cbn [String.eqb Ascii.eqb Bool.eqb andb].
  split.
  - destruct (str_of_nat_digits n) as [Hne Hd].
    assert (Hf : first_digits (list_ascii_of_string (strip (a ++ str_of_nat n ++ b))) =
                 Some (list_ascii_of_string (str_of_nat n))).
    { rewrite first_digits_strip, !PyFacts.list_ascii_of_string_app, first_digits_lead by exact Ha.
      destruct (list_ascii_of_string (str_of_nat n)) as [| c r] eqn:E; [contradiction |].
      inversion Hd; subst. cbn [app first_digits]. rewrite H1. f_equal.
      exact (digit_run_digits (c :: r) _ Hd Hb). }
    destruct (String.eqb (strip (a ++ str_of_nat n ++ b)) "") eqn:E.
    + apply String.eqb_eq in E. rewrite E in Hf. discriminate.
    + rewrite Hf, string_of_list_ascii_of_string, PyFacts.str_of_nat_value. reflexivity.
  - intros ho Hho. apply forallb_ascii_Forall in Hho.
    destruct (String.eqb (strip ho) ""); [reflexivity |].
    rewrite first_digits_strip, first_digits_none by exact Hho. reflexivity.
Qed.

Lemma camera_height_other_witness :
  map_camera_height (Some " Other ") (Some ("approx " ++ str_of_nat 120 ++ " cm")) = Some 120 /\
  (forall ho, forallb (fun c => negb (Time.is_digit c) && Nat.ltb (nat_of_ascii c) 128)
                      (list_ascii_of_string ho) = true ->
              map_camera_height (Some " Other ") (Some ho) = None).
Proof.
  apply camera_height_other; vm_compute; reflexivity.
Defined.

End MappingFacts2.

(** ** Location identifiers *)
Module LocationFacts.
Import Py Mappings.

Lemma alnum_not_dash (c : ascii) : Slug.alnum c = true -> is_dash c = false.
Proof. destruct c as [[] [] [] [] [] [] [] []]; vm_compute; congruence. Qed.

Lemma dd_free_tail (a : ascii) (r : list ascii) : dd_free (a :: r) = true -> dd_free r = true.
Proof. destruct r as [| b r]; [reflexivity |]. cbn [dd_free]. intros H; apply andb_true_iff in H; apply H. Qed.

Lemma dd_free_app_r (p m : list ascii) : dd_free (p ++ m) = true -> dd_free m = true.
Proof. induction p as [| a p IH]; intros H; [exact H | apply IH; exact (dd_free_tail a _ H)]. Qed.

Lemma dd_free_app_l (m q : list ascii) : dd_free (m ++ q) = true -> dd_free m = true.
Proof.
  induction m as [| a m IH]; intros H; [reflexivity |].
  destruct m as [| b m]; [reflexivity |].
  change (negb (is_dash a && is_dash b) && dd_free ((b :: m) ++ q) = true) in H.
  change (negb (is_dash a && is_dash b) && dd_free (b :: m) = true).
  apply andb_true_iff in H as [H1 H2]. rewrite H1. apply IH. exact H2.
Qed.

Lemma dd_free_dash_cons (l : list ascii) :
  dd_free l = true -> match l with c :: _ => is_dash c = false | [] => True end ->
  dd_free ("-"%char :: l) = true.
Proof.
  destruct l as [| c l]; [reflexivity |]. intros H Hc.
  change (negb (is_dash "-" && is_dash c) && dd_free (c :: l) = true). rewrite Hc, H. reflexivity.
Qed.

(** [re.sub(r"[^a-z0-9]+", "-", s)] leaves letters, digits and dashes, and
    never two dashes in a row. *)
Lemma sub_runs_ok (l : list ascii) (b : bool) :
  Forall (fun c => Slug.alnum c || is_dash c = true) (sub_runs b l) /\
  dd_free (sub_runs b l) = true /\
  (b = true -> match sub_runs b l with c :: _ => is_dash c = false | [] => True end).
Proof.
  revert b. induction l as [| c l IH]; intros b; [repeat split; constructor |].
  cbn [sub_runs]. destruct (Slug.alnum c) eqn:A.
  - destruct (IH false) as (H1 & H2 & _). split; [constructor; [rewrite A; reflexivity | exact H1] |].
    split; [| intros _; exact (alnum_not_dash c A)].
    destruct (sub_runs false l) as [| d r]; [reflexivity |].
    change (negb (is_dash c && is_dash d) && dd_free (d :: r) = true).
    rewrite (alnum_not_dash c A), H2. reflexivity.
  - destruct (IH true) as (H1 & H2 & H3). destruct b.
    + repeat split; auto.
    + split; [constructor; [reflexivity | exact H1] |]. split; [| discriminate].
      apply dd_free_dash_cons; [exact H2 | exact (H3 eq_refl)].
Qed.

Lemma strip_dash_lead_split (l : list ascii) :
  exists p, l = (p ++ strip_dash_lead l)%list /\
            match strip_dash_lead l with c :: _ => is_dash c = false | [] => True end.
Proof.
  induction l as [| c l IH]; [exists []; split; [reflexivity | exact I] |].
  cbn [strip_dash_lead]. destruct (is_dash c) eqn:E.
  - destruct IH as (p & Hp & Hh). exists (c :: p). split; [cbn [app]; now rewrite <- Hp | exact Hh].
  - exists []. split; [reflexivity | exact E].
Qed.

(** [s.strip("-")] keeps a contiguous part of [s] that does not start with
    a dash. *)
Lemma strip_dash_split (l : list ascii) :
  exists p q, l = (p ++ strip_dash l ++ q)%list /\
              match strip_dash l with c :: _ => is_dash c = false | [] => True end.
Proof.
  destruct (strip_dash_lead_split l) as (p & Hp & Hh).
  destruct (strip_dash_lead_split (rev (strip_dash_lead l))) as (q0 & Hq & _).
  set (u := strip_dash_lead l) in *. set (w := strip_dash_lead (rev u)) in *.
  assert (Hu : u = (rev w ++ rev q0)%list)
    by (rewrite <- (rev_involutive u), Hq; apply rev_app_distr).
  exists p, (rev q0). unfold strip_dash. fold u. fold w. split.
  - rewrite Hp at 1. now rewrite Hu.
  - rewrite Hu in Hh. destruct (rev w) as [| c r]; [exact I | exact Hh].
Qed.

Lemma substring_firstn (n : nat) (s : string) :
  list_ascii_of_string (substring 0 n s) = firstn n (list_ascii_of_string s).
Proof.
  revert n. induction s as [| c s IH]; intros [| n]; try reflexivity.
  cbn [substring list_ascii_of_string firstn]. now rewrite IH.
Qed.

Lemma length_list_ascii (s : string) : length (list_ascii_of_string s) = String.length s.
Proof. induction s as [| c s IH]; cbn; [reflexivity | now rewrite IH]. Qed.

Lemma Forall_firstn_of {A} (P : A -> Prop) (n : nat) (l : list A) :
  Forall P l -> Forall P (firstn n l).
Proof. intros H. rewrite <- (firstn_skipn n l) in H. apply Forall_app in H. apply H. Qed.

Lemma dd_free_no_double_dash (s : string) :
  dd_free (list_ascii_of_string s) = true -> contains "--" s = false.
Proof.
  induction s as [| a s IH]; intros H; [reflexivity |].
  rewrite StrFacts.contains_eq.
  replace (String.prefix "--" (String a s)) with false.
  - apply IH. exact (dd_free_tail a _ H).
  - cbn -[ascii_dec]. destruct (ascii_dec "-" a) as [<- | _]; [| reflexivity].
    destruct s as [| b s]; [reflexivity |]. cbn -[ascii_dec].
    destruct (ascii_dec "-" b) as [<- | _]; [| reflexivity].
    cbn in H. discriminate H.
Qed.

(** [_to_location_id] builds identifiers of the form "loc-..." of at most
    64 characters, made of lowercase ASCII letters, digits and dashes, with
    no two dashes in a row. *)
Theorem location_id_shape (val : option string) (r : string) :
  to_location_id val = Some r ->
  (exists t, r = "loc-" ++ t) /\ String.length r <= 64 /\
  Forall (fun c => Slug.alnum c || is_dash c = true) (list_ascii_of_string r) /\
  contains "--" r = false.
Proof.
  destruct val as [v |]; [| discriminate]. unfold to_location_id. cbv zeta.
  destruct (String.eqb (strip v) ""); [discriminate |].
  set (S := strip_dash (sub_runs false (list_ascii_of_string (lower (strip v))))).
  intros H.
  assert (Hr : substring 0 64 ("loc-" ++ string_of_list_ascii S) = r)
    by (injection H; intros E; exact E).
  subst r. clear H.
  destruct (sub_runs_ok (list_ascii_of_string (lower (strip v))) false) as (Hc & Hd & _).
  destruct (strip_dash_split (sub_runs false (list_ascii_of_string (lower (strip v))))) as (p & q & Hs & Hh).
  fold S in Hs, Hh.
  assert (HcS : Forall (fun c => Slug.alnum c || is_dash c = true) S)
    by (rewrite Hs in Hc; apply Forall_app in Hc as [_ Hc]; apply Forall_app in Hc; apply Hc).
  assert (HdS : dd_free S = true)
    by (rewrite Hs in Hd; apply dd_free_app_r in Hd; exact (dd_free_app_l _ _ Hd)).
  assert (HL : list_ascii_of_string ("loc-" ++ string_of_list_ascii S) = ("l" :: "o" :: "c" :: "-" :: S)%char)
    by (cbn [append list_ascii_of_string]; now rewrite list_ascii_of_string_of_list_ascii).
  split; [| split; [| split]].
  - eexists. reflexivity.
  - rewrite <- length_list_ascii, substring_firstn. apply firstn_le_length.
  - rewrite substring_firstn, HL. apply Forall_firstn_of.
    repeat constructor. exact HcS.
  - apply dd_free_no_double_dash. rewrite substring_firstn, HL.
    set (L := ("l" :: "o" :: "c" :: "-" :: S)%char).
    apply (dd_free_app_l _ (skipn 64 L)). rewrite firstn_skipn. unfold L.
    change (negb (is_dash "l" && is_dash "o") && (negb (is_dash "o" && is_dash "c") &&
            (negb (is_dash "c" && is_dash "-") && dd_free ("-" :: S)%char)) = true).
    rewrite (dd_free_dash_cons S HdS Hh). reflexivity.
Qed.

Lemma location_id_shape_witness :
  (exists t, "loc-station-1-north" = "loc-" ++ t) /\ String.length "loc-station-1-north" <= 64 /\
  Forall (fun c => Slug.alnum c || is_dash c = true) (list_ascii_of_string "loc-station-1-north") /\
  contains "--" "loc-station-1-north" = false.
Proof.
  apply (location_id_shape (Some "  Station #1 -- (North)  ")). vm_compute. reflexivity.
Defined.

End LocationFacts.

(** ** What a run writes *)
Module RunExtras.
Import Py Frame Pipeline Examples.

Lemma written_observations_app (a b : list effect) :
  written_observations (a ++ b)%list = (written_observations a ++ written_observations b)%list.
Proof. unfold written_observations. apply flat_map_app. Qed.

Lemma map_combine_snd {A B C} (g : A * B -> C) (h : B -> C) (a : list A) (b : list B) :
  length b <= length a -> (forall x y, g (x, y) = h y) -> map g (combine a b) = map h b.
Proof.
  intros Hl Hg. revert b Hl; induction a as [| x a IH]; intros [| y b] Hl; cbn in *; try reflexivity; [lia |].
  rewrite Hg. f_equal. apply IH. lia.
Qed.

Lemma build_observations_ids (db : Time.tzdb) (infer : string -> option Time.parsed)
      (st : prepared) (img : frame) (m : list med_rec) :
  length m <= length (rows img) ->
  map o_mediaID (build_observations db infer st img m) = map mediaID m /\
  map observationID (build_observations db infer st img m) =
    map (fun mr => Some ("obs_" ++ match mediaID mr with Some s => s | None => "nan" end)) m.
Proof.
  intros Hl. unfold build_observations. rewrite !map_map.
  split; apply map_combine_snd; try exact Hl; intros r mr;
    destruct (Classify.classify_observation_and_scientific_name _); reflexivity.
Qed.

(** Every error [process_zip] raises (a missing or unreadable member, a
    "No CV Result" placeholder, an incomplete or out-of-range table, a
    repeated mediaID) comes before the output directory is created or any
    file is written. *)
Theorem errors_leave_no_writes (db : Time.tzdb) (infer : string -> option Time.parsed)
        (inp : zip_input) (fs fs' : list effect) (e : error) :
  process_zip db infer inp fs = (inl e, fs') -> fs' = fs.
Proof.
  unfold process_zip. cbv beta iota delta [bind lift].
  destruct (prepare db infer inp) as [e' | st]; [intros H; injection H as _ <-; reflexivity |].
  destruct (camera_model_step _ _) as [e' | []]; [intros H; injection H as _ <-; reflexivity |].
  destruct (check_deployments _) as [e' | []]; [intros H; injection H as _ <-; reflexivity |].
  destruct (check_media _) as [e' | []]; [intros H; injection H as _ <-; reflexivity |].
  destruct (check_unique _) as [e' | []]; [intros H; injection H as _ <-; reflexivity |].
  destruct (events_step _) as [e' | []]; [intros H; injection H as _ <-; reflexivity |].
  destruct (check_observations _) as [e' | []]; [intros H; injection H as _ <-; reflexivity |].
  unfold write_outputs, emit, ret. destruct (make_zip inp); discriminate.
Qed.

Lemma errors_leave_no_writes_witness :
  process_zip Time.example_db no_infer archive_lat95 [EnsureOutputDir "/previous"] =
    (inl (DeploymentsIncomplete "latitude" 1 1), [EnsureOutputDir "/previous"]) /\
  [EnsureOutputDir "/previous"] = [EnsureOutputDir "/previous"].
Proof.
  assert (H : process_zip Time.example_db no_infer archive_lat95 [EnsureOutputDir "/previous"] =
                (inl (DeploymentsIncomplete "latitude" 1 1), [EnsureOutputDir "/previous"]))
    by (vm_compute; reflexivity).
  split; [exact H | exact (errors_leave_no_writes _ _ _ _ _ _ H)].
Defined.

(** A run that returns writes one media table and one observations table,
    with one observation per media row: the observation of a row carries the
    row's mediaID and the observationID "obs_" followed by that mediaID, so
    observationIDs never repeat. *)
Theorem observations_follow_media (db : Time.tzdb) (infer : string -> option Time.parsed)
        (inp : zip_input) (fs fs' : list effect) (r : string) :
  process_zip db infer inp fs = (inr r, fs') ->
  exists m o,
    written_media fs' = (written_media fs ++ [m])%list /\
    written_observations fs' = (written_observations fs ++ [o])%list /\
    map o_mediaID o = map mediaID m /\
    map observationID o = map (option_map (fun s => "obs_" ++ s)) (map mediaID m) /\
    NoDup (map observationID o).
Proof.
  intros H.
  destruct (RunShape.process_zip_success db infer inp fs fs' r H)
    as (st & Hp & Hc & Hd & Hm & Hu & Hev & Ho & Hw).
  set (img := sorted_images (p_images st)) in *.
  set (m := build_media img) in *.
  exists m, (build_observations db infer st img m).
  assert (Hl : length m <= length (rows img))
    by (unfold m, build_media; rewrite length_map, length_combine; apply Nat.le_min_l).
  destruct (build_observations_ids db infer st img m Hl) as [H1 H2].
  assert (H3 : map observationID (build_observations db infer st img m) =
               map (option_map (fun s => "obs_" ++ s)) (map mediaID m)).
  { rewrite H2, map_map. apply map_ext_in. intros mr Hmr.
    pose proof (MediaFacts.first_missing_none_mediaID m Hm) as Hn.
    rewrite Forall_forall in Hn. specialize (Hn (mediaID mr) (in_map _ _ _ Hmr)).
    destruct (mediaID mr); [reflexivity | contradiction]. }
  split; [exact Hw |]. split; [| split; [exact H1 | split; [exact H3 |]]].
  - unfold process_zip in H. cbv beta iota delta [bind lift] in H.
    rewrite Hp, Hc, Hd in H. fold img m in H. rewrite Hm, Hu in H. fold img m in H.
    rewrite Hev in H. rewrite Ho in H.
    unfold write_outputs, emit, ret in H.
    destruct (make_zip inp); injection H as _ <-;
      rewrite ?written_observations_app; unfold written_observations; cbn [flat_map];
      rewrite ?app_nil_r; reflexivity.
  - rewrite H3. apply MediaFacts.NoDup_map_inj; [| exact (MediaFacts.check_unique_NoDup m Hu)].
    intros [a |] [b |]; cbn; try discriminate; [| reflexivity].
    intros E. f_equal. apply (PyFacts.append_cancel_l "obs_"). congruence.
Qed.

Lemma observations_follow_media_witness :
  exists m o,
    written_media (snd (process_zip Time.example_db no_infer (archive [deploy_ok] images_dup) [])) =
      (written_media [] ++ [m])%list /\
    written_observations (snd (process_zip Time.example_db no_infer (archive [deploy_ok] images_dup) [])) =
      (written_observations [] ++ [o])%list /\
    map o_mediaID o = map mediaID m /\
    map observationID o = map (option_map (fun s => "obs_" ++ s)) (map mediaID m) /\
    NoDup (map observationID o).
Proof.
  apply (observations_follow_media Time.example_db no_infer (archive [deploy_ok] images_dup) []
           _ "/data/out/WI2CamtrapDP_wi_export_2000_20240201_120000").
  vm_compute. reflexivity.
Defined.

End RunExtras.
